(** * feeds/models.py: the data-model layer of the feed reader

    A shallow embedding of [src/feeds/models.py].  Model classes become
    records, the database is a record of tables keyed by primary key
    (stdpp's [gmap]), methods that call [save] thread the database
    explicitly and report the exception they raise, and properties that
    read the wall clock take the clock reading as an argument. *)

From Stdlib Require Import ZArith String Ascii List Sorted Permutation.
From stdpp Require Import base gmap list strings sorting.

Open Scope Z_scope.

(** ** The Python and Django primitives the models rely on *)

Module Py.

(** An aware [datetime] is the instant it denotes: microseconds counted
    from the start of proleptic ordinal day 0 (so 0001-01-01T00:00Z is
    [us_per_day]).  Subtracting two aware datetimes gives a [timedelta],
    kept as its total number of microseconds. *)
Definition datetime := Z.
Definition timedelta := Z.

Definition us_per_day : Z := 86400 * 1000000.

(** [datetime._days_before_year] *)
Definition days_before_year (year : Z) : Z :=
  let y := year - 1 in
  y * 365 + y / 4 - y / 100 + y / 400.

(** [datetime._is_leap] *)
Definition is_leap (year : Z) : bool :=
  (year mod 4 =? 0) && (negb (year mod 100 =? 0) || (year mod 400 =? 0)).

(** [datetime._DAYS_BEFORE_MONTH], indexed by the month 1..12. *)
Definition DAYS_BEFORE_MONTH : list Z :=
  [0; 0; 31; 59; 90; 120; 151; 181; 212; 243; 273; 304; 334].

(** [datetime._days_before_month] *)
Definition days_before_month (year month : Z) : Z :=
  nth (Z.to_nat month) DAYS_BEFORE_MONTH 0
  + (if (2 <? month) && is_leap year then 1 else 0).

(** [datetime._ymd2ord] *)
Definition ymd2ord (year month day : Z) : Z :=
  days_before_year year + days_before_month year month + day.

(** [datetime(year, month, day, tzinfo=timezone.utc)]: midnight UTC. *)
Definition datetime_utc (year month day : Z) : datetime :=
  ymd2ord year month day * us_per_day.

(** [a - b] on aware datetimes. *)
Definition sub (a b : datetime) : timedelta := a - b.

(** [timedelta.days]: a timedelta is normalised with
    [0 <= seconds < 86400] and [0 <= microseconds < 10**6], so [days]
    is the floor of the duration in days (negative durations round
    down). *)
Definition days (dd : timedelta) : Z := dd / us_per_day.

(** [int(n / 2)] for an int [n]: true division followed by [int], which
    truncates toward zero.  [timedelta.days] is below [10**9] in
    magnitude, so the float quotient is exact. *)
Definition int_half (n : Z) : Z := Z.quot n 2.

Definition hex_digit (d : Z) : ascii :=
  nth (Z.to_nat d)
      ["0"; "1"; "2"; "3"; "4"; "5"; "6"; "7";
       "8"; "9"; "a"; "b"; "c"; "d"; "e"; "f"]%char "0"%char.

Fixpoint hex_loop (fuel : nat) (n : Z) (acc : string) : string :=
  match fuel with
  | O => acc
  | S fuel' =>
      let acc' := String (hex_digit (n mod 16)) acc in
      if n <? 16 then acc' else hex_loop fuel' (n / 16) acc'
  end.

(** The lowercase hexadecimal digits of [n >= 0], most significant
    first, ["0"] for zero.  A number has at most [log2 n + 1] digits. *)
Definition hex_abs (n : Z) : string :=
  hex_loop (S (Z.to_nat (Z.log2 n))) n EmptyString.

Fixpoint zeros (k : nat) : string :=
  match k with O => EmptyString | S k' => String "0" (zeros k') end.

(** ["%02x" % n]: an optional minus sign, then the digits of [|n|]
    padded with zeros so that the whole field is at least two
    characters wide. *)
Definition format_02x (n : Z) : string :=
  let sign := if n <? 0 then "-" else EmptyString in
  let digits := hex_abs (Z.abs n) in
  sign +:+ zeros (2 - String.length sign - String.length digits) +:+ digits.

Fixpoint dec_loop (fuel : nat) (n : Z) (acc : string) : string :=
  match fuel with
  | O => acc
  | S fuel' =>
      let acc' := String (hex_digit (n mod 10)) acc in
      if n <? 10 then acc' else dec_loop fuel' (n / 10) acc'
  end.

(** ["%d" % n]: an optional minus sign and the decimal digits of [|n|]. *)
Definition format_d (n : Z) : string :=
  (if n <? 0 then "-" else EmptyString)
  +:+ dec_loop (S (Z.to_nat (Z.log2 (Z.abs n)))) (Z.abs n) EmptyString.

(** [s[2:]] *)
Definition drop2 (s : string) : string :=
  match s with
  | String _ (String _ rest) => rest
  | _ => EmptyString
  end.

(** A Python [str] whose content matters code point by code point. *)
Definition unicode := list Z.

(** [str.encode("utf-8", "strict")]: lone surrogates cannot be encoded
    (UnicodeEncodeError, here [None]). *)
Definition utf8_char (c : Z) : option (list Z) :=
  if c <? 0 then None
  else if c <? 128 then Some [c]
  else if c <? 2048 then Some [192 + c / 64; 128 + c mod 64]
  else if (55296 <=? c) && (c <=? 57343) then None
  else if c <? 65536 then
    Some [224 + c / 4096; 128 + (c / 64) mod 64; 128 + c mod 64]
  else if c <? 1114112 then
    Some [240 + c / 262144; 128 + (c / 4096) mod 64;
          128 + (c / 64) mod 64; 128 + c mod 64]
  else None.

Fixpoint utf8_encode (s : unicode) : option (list Z) :=
  match s with
  | [] => Some []
  | c :: s' =>
      match utf8_char c, utf8_encode s' with
      | Some bs, Some rest => Some (bs ++ rest)
      | _, _ => None
      end
  end.

(** [urllib.parse._ALWAYS_SAFE]: ASCII letters, digits and [_.-~]. *)
Definition always_safe (b : Z) : bool :=
  ((65 <=? b) && (b <=? 90)) || ((97 <=? b) && (b <=? 122))
  || ((48 <=? b) && (b <=? 57))
  || (b =? 95) || (b =? 46) || (b =? 45) || (b =? 126).

Definition HEX_DIGIT (d : Z) : ascii :=
  nth (Z.to_nat d)
      ["0"; "1"; "2"; "3"; "4"; "5"; "6"; "7";
       "8"; "9"; "A"; "B"; "C"; "D"; "E"; "F"]%char "0"%char.

(** One byte under [quote_plus(..., safe empty)]: safe bytes stay, a
    space becomes [+], everything else is [%XX]. *)
Definition quote_byte (b : Z) : string :=
  if always_safe b then String (ascii_of_N (Z.to_N b)) EmptyString
  else if b =? 32 then "+"
  else String "%" (String (HEX_DIGIT (b / 16)) (String (HEX_DIGIT (b mod 16)) EmptyString)).

Fixpoint quote_bytes (bs : list Z) : string :=
  match bs with
  | [] => EmptyString
  | b :: bs' => quote_byte b +:+ quote_bytes bs'
  end.

(** [urllib.parse.quote_plus(s)] for a [str]: [None] when the UTF-8
    step raises. *)
Definition quote_plus (s : unicode) : option string :=
  match utf8_encode s with
  | Some bs => Some (quote_bytes bs)
  | None => None
  end.

(** [urlencode({"X": v})]: the single pair rendered as [X=<quoted v>]. *)
Definition urlencode_X (v : unicode) : option string :=
  match quote_plus v with
  | Some q => Some ("X=" +:+ q)
  | None => None
  end.

End Py.

(** Exceptions the modelled code can raise. *)
Inductive Exn : Type :=
| ValueError
| DatabaseError
| TypeError.

(** The outcome of a call that may raise. *)
Inductive Result (A : Type) : Type :=
| Ok (a : A)
| Raise (e : Exn).
Arguments Ok {A} a.
Arguments Raise {A} e.

(** ** class Post *)

Module Post.

(** One instance of [Post]: the in-memory object, and also the row of
    table [feeds_post] stored under its primary key.  [source] is the
    foreign-key column [source_id]; [id] and [found] are unset ([None])
    on an instance that was never saved.  The many-to-many [tags] live
    in a join table of their own and are no column of the row. *)
Record t : Type := mk {
  id        : option Z;
  source    : Z;
  title     : Py.unicode;
  body      : string;
  link      : option string;
  found     : option Py.datetime;
  created   : Py.datetime;
  guid      : option string;
  author    : option string;
  index     : Z;
  image_url : option string;
  read      : bool;
  starred   : bool
}.

(** Field defaults: [read = BooleanField(default=False)],
    [starred = BooleanField(default=False)]. *)
Definition read_default : bool := false.
Definition starred_default : bool := false.

(** [Post(source=..., title=..., body=..., created=..., index=...)]:
    every column left out takes its declared default, the nullable
    ones [None]. *)
Definition create (source : Z) (title : Py.unicode) (body : string)
    (created : Py.datetime) (index : Z) : t :=
  {| id := None; source := source; title := title; body := body;
     link := None; found := None; created := created; guid := None;
     author := None; index := index; image_url := None;
     read := read_default; starred := starred_default |}.

(** [self.read = v] *)
Definition set_read (v : bool) (self : t) : t :=
  {| id := id self; source := source self; title := title self;
     body := body self; link := link self; found := found self;
     created := created self; guid := guid self; author := author self;
     index := index self; image_url := image_url self;
     read := v; starred := starred self |}.

(** [self.starred = v] *)
Definition set_starred (v : bool) (self : t) : t :=
  {| id := id self; source := source self; title := title self;
     body := body self; link := link self; found := found self;
     created := created self; guid := guid self; author := author self;
     index := index self; image_url := image_url self;
     read := read self; starred := v |}.

(** The names [save(update_fields=...)] accepts: the concrete non-key
    fields, the foreign key also under its column name. *)
Definition non_pk_fields : list string :=
  ["source"; "source_id"; "title"; "body"; "link"; "found"; "created";
   "guid"; "author"; "index"; "image_url"; "read"; "starred"].

(** The value a column has after [UPDATE ... SET column = ...]: the
    instance's when the column is the one named [name], else the row's. *)
Definition pick {A : Type} (column name : string) (get : t -> A)
    (self row : t) : A :=
  if String.eqb column name then get self else get row.

(** [UPDATE feeds_post SET <column> = <value on self>]: the row with
    the one named column overwritten by the instance's value. *)
Definition write_column (self : t) (column : string) (row : t) : t :=
  {| id := id row;
     source := if String.eqb column "source_id" then source self
               else pick column "source" source self row;
     title := pick column "title" title self row;
     body := pick column "body" body self row;
     link := pick column "link" link self row;
     found := pick column "found" found self row;
     created := pick column "created" created self row;
     guid := pick column "guid" guid self row;
     author := pick column "author" author self row;
     index := pick column "index" index self row;
     image_url := pick column "image_url" image_url self row;
     read := pick column "read" read self row;
     starred := pick column "starred" starred self row |}.

(** [self.save(update_fields=fields)] against table [feeds_post].
    An empty list returns at once; a name that is no non-key column is
    a [ValueError]; so is an instance without primary key; otherwise
    one [UPDATE ... WHERE id = pk] writes the named columns, and a
    statement that matched no row is a [DatabaseError]. *)
Definition save (self : t) (update_fields : list string)
    (table : gmap Z t) : gmap Z t * Result unit :=
  match update_fields with
  | [] => (table, Ok tt)
  | _ =>
      if forallb (fun f => existsb (String.eqb f) non_pk_fields) update_fields
      then
        match id self with
        | None => (table, Raise ValueError)
        | Some pk =>
            match table !! pk with
            | None => (table, Raise DatabaseError)
            | Some row =>
                (<[pk := fold_right (write_column self) row update_fields]> table,
                 Ok tt)
            end
        end
      else (table, Raise ValueError)
  end.

(** What a method leaves behind: the mutated instance, the table, and
    whether the call returned or raised. *)
Record effect : Type := mk_effect {
  self_after  : t;
  table_after : gmap Z t;
  outcome     : Result unit
}.

(** [mark_read]: [self.read = True; self.save(update_fields=['read'])] *)
Definition mark_read (self : t) (table : gmap Z t) : effect :=
  let self := set_read true self in
  let '(table, r) := save self ["read"] table in
  mk_effect self table r.

(** [unmark_read]: [self.read = False; self.save(update_fields=['read'])] *)
Definition unmark_read (self : t) (table : gmap Z t) : effect :=
  let self := set_read false self in
  let '(table, r) := save self ["read"] table in
  mk_effect self table r.

(** [toggle_starred]:
    [self.starred = not self.starred; self.save(update_fields=['starred'])] *)
Definition toggle_starred (self : t) (table : gmap Z t) : effect :=
  let self := set_starred (negb (starred self)) self in
  let '(table, r) := save self ["starred"] table in
  mk_effect self table r.

(** The [try] block of [title_url_encoded]: the final value of the
    local [ret] and whether the [except] branch ran (it calls
    [logging.info] once). *)
Definition title_url_encoded_ret (self : t) : string * bool :=
  match Py.urlencode_X (title self) with
  | Some ret =>
      ((if (2 <? String.length ret)%nat then Py.drop2 ret else ret), false)
  | None => (EmptyString, true)
  end.

(** The property [title_url_encoded].  The body ends after the
    [try]/[except] without a [return] statement, so the call yields
    Python's [None] whatever [ret] holds. *)
Definition title_url_encoded (self : t) : option string :=
  let '(ret, logged) := title_url_encoded_ret self in
  None.

(** Property [recast_link]: ["/post/%d/" % self.id]; [%d] refuses
    [None]. *)
Definition recast_link (self : t) : Result string :=
  match id self with
  | Some pk => Ok ("/post/" +:+ Py.format_d pk +:+ "/")
  | None => Raise TypeError
  end.

(** [Meta.ordering = ["index"]] *)
Definition Meta_ordering : list string := ["index"].

End Post.

(** ** class Source *)

Module Source.

(** One instance of [Source], and the row of table [feeds_source].
    [category] is the nullable foreign-key column [category_id]. *)
Record t : Type := mk {
  id             : option Z;
  name           : option string;
  site_url       : option string;
  feed_url       : string;
  image_url      : option string;
  description    : option string;
  last_polled    : option Py.datetime;
  due_poll       : Py.datetime;
  etag           : option string;
  last_modified  : option string;
  last_result    : option string;
  interval       : Z;
  last_success   : option Py.datetime;
  last_change    : option Py.datetime;
  live           : bool;
  status_code    : Z;
  last_302_url   : option string;
  last_302_start : option Py.datetime;
  max_index      : Z;
  num_subs       : Z;
  is_cloudflare  : bool;
  category       : option Z
}.

(** The [default=] arguments of the field declarations. *)
Definition due_poll_default : Py.datetime := Py.datetime_utc 1900 1 1.
Definition interval_default : Z := 400.
Definition live_default : bool := true.
Definition status_code_default : Z := 0.
Definition max_index_default : Z := 0.
Definition num_subs_default : Z := 1.
Definition is_cloudflare_default : bool := false.

(** [Source(feed_url=...)]: the instance the model constructor builds
    when only the required column is given.  Columns with [null=True]
    and no default start as [None]. *)
Definition create (feed_url : string) : t :=
  {| id := None; name := None; site_url := None; feed_url := feed_url;
     image_url := None; description := None; last_polled := None;
     due_poll := due_poll_default; etag := None; last_modified := None;
     last_result := None; interval := interval_default;
     last_success := None; last_change := None; live := live_default;
     status_code := status_code_default; last_302_url := None;
     last_302_start := None; max_index := max_index_default;
     num_subs := num_subs_default;
     is_cloudflare := is_cloudflare_default; category := None |}.

(** Property [best_link]: [feed_url] when [site_url] is [None] or
    empty, else [site_url]. *)
Definition best_link (self : t) : string :=
  match site_url self with
  | None => feed_url self
  | Some site_url => if String.eqb site_url EmptyString then feed_url self else site_url
  end.

(** Property [display_name]: [best_link] when [name] is [None] or
    empty, else [name]. *)
Definition display_name (self : t) : string :=
  match name self with
  | None => best_link self
  | Some name => if String.eqb name EmptyString then best_link self else name
  end.

(** Property [garden_style]; [now] is what
    [datetime.datetime.utcnow().replace(tzinfo=datetime.timezone.utc)]
    returns when the property is read. *)
Definition garden_style (self : t) (now : Py.datetime) : string :=
  if negb (live self) then "background-color:#ccc;"
  else
    match last_change self, last_success self with
    | Some last_change, Some _ =>
        let dd := Py.sub now last_change in
        let days := Py.int_half (Py.days dd) in
        let col := 255 - days in
        let col := if col <? 0 then 0 else col in
        let css := "background-color:#ff" +:+ Py.format_02x col
                   +:+ Py.format_02x col in
        if col <? 128 then css +:+ ";color:white" else css
    | _, _ => "background-color:#D00;color:white"
    end.

(** Property [health_box]; [now] as for [garden_style]. *)
Definition health_box (self : t) (now : Py.datetime) : string :=
  if negb (live self) then "#ccc;"
  else
    match last_change self, last_success self with
    | Some last_change, Some _ =>
        let dd := Py.sub now last_change in
        let days := Py.int_half (Py.days dd) in
        let red := days in
        let red := if 255 <? red then 255 else red in
        let green := 255 - days in
        let green := if green <? 0 then 0 else green in
        "#" +:+ Py.format_02x red +:+ Py.format_02x green +:+ "00"
    | _, _ => "#F00;"
    end.

(** [self.posts.filter(read=False)]: the rows of [feeds_post] whose
    [source_id] is [pk] and whose [read] is false. *)
Definition unread_of (pk : Z) (row : Z * Post.t) : bool :=
  (Post.source row.2 =? pk) && negb (Post.read row.2).

(** Property [unread_posts_count]:
    [self.posts.filter(read=False).count()].  The related manager
    [self.posts] refuses an instance that has no primary key. *)
Definition unread_posts_count (self : t) (posts : gmap Z Post.t) : Result Z :=
  match id self with
  | None => Raise ValueError
  | Some pk =>
      Ok (Z.of_nat (length (List.filter (unread_of pk) (map_to_list posts))))
  end.

End Source.

(** ** class Category *)

Module Category.

Record t : Type := mk {
  id   : option Z;
  name : string
}.

(** [Source.objects.filter(category=self)] over the rows of
    [feeds_source], [pk] being [self]'s primary key. *)
Definition in_category (pk : Z) (row : Z * Source.t) : bool :=
  match Source.category row.2 with
  | Some c => c =? pk
  | None => false
  end.

(** The join [Count('posts', ...)] adds to the query:
    [feeds_source LEFT OUTER JOIN feeds_post
     ON feeds_source.id = feeds_post.source_id].  A source without
     posts still yields one row, with the post side NULL. *)
Definition left_join_posts (sources : list (Z * Source.t))
    (posts : list (Z * Post.t))
    : list ((Z * Source.t) * option (Z * Post.t)) :=
  flat_map
    (fun s =>
       match List.filter (fun p => Post.source p.2 =? s.1) posts with
       | [] => [(s, None)]
       | ps => map (fun p => (s, Some p)) ps
       end)
    sources.

(** [COUNT(feeds_post.id) FILTER (WHERE NOT feeds_post.read)]: a joined
    row counts when its post side is not NULL and satisfies
    [Q(posts__read=False)]. *)
Definition counted (row : (Z * Source.t) * option (Z * Post.t)) : bool :=
  match row.2 with
  | Some p => negb (Post.read p.2)
  | None => false
  end.

(** Property [unread_posts_count]:
    [Source.objects.filter(category=self).aggregate(
       unread_count=Count('posts', filter=Q(posts__read=False))
     )['unread_count']].
    Filtering on an unsaved instance is refused. *)
Definition unread_posts_count (self : t) (sources : gmap Z Source.t)
    (posts : gmap Z Post.t) : Result Z :=
  match id self with
  | None => Raise ValueError
  | Some pk =>
      let selected := List.filter (in_category pk) (map_to_list sources) in
      let joined := left_join_posts selected (map_to_list posts) in
      Ok (Z.of_nat (length (List.filter counted joined)))
  end.

End Category.

(** ** class Enclosure *)

Module Enclosure.

Record t : Type := mk {
  id          : option Z;
  post        : Z;
  length      : Z;
  href        : string;
  type        : string;
  medium      : option string;
  description : option string
}.

(** Property [recast_link]: ["/enclosure/%d/" % self.id]. *)
Definition recast_link (self : t) : Result string :=
  match id self with
  | Some pk => Ok ("/enclosure/" +:+ Py.format_d pk +:+ "/")
  | None => Raise TypeError
  end.

End Enclosure.

(** ** The default manager of Post and its ordering *)

Module PostManager.

(** One ordering term on an integer-valued column of [feeds_post]; a
    leading [-] reverses it. *)
Definition column (name : string) : option (Z * Post.t -> Z) :=
  if String.eqb name "index" then Some (fun r => Post.index r.2)
  else if String.eqb name "source" then Some (fun r => Post.source r.2)
  else if String.eqb name "created" then Some (fun r => Post.created r.2)
  else if String.eqb name "id" then Some (fun r => r.1)
  else if String.eqb name "pk" then Some (fun r => r.1)
  else None.

Definition term_compare (term : string) (a b : Z * Post.t) : comparison :=
  match term with
  | String "-" name =>
      match column name with
      | Some key => Z.compare (key b) (key a)
      | None => Eq
      end
  | _ =>
      match column term with
      | Some key => Z.compare (key a) (key b)
      | None => Eq
      end
  end.

(** [ORDER BY t1, t2, ...]: the first term that tells two rows apart
    decides. *)
Fixpoint order_compare (ordering : list string) (a b : Z * Post.t)
    : comparison :=
  match ordering with
  | [] => Eq
  | term :: rest =>
      match term_compare term a b with
      | Eq => order_compare rest a b
      | c => c
      end
  end.

Definition order_leb (ordering : list string) (a b : Z * Post.t) : bool :=
  match order_compare ordering a b with
  | Gt => false
  | _ => true
  end.

Fixpoint insert_row (leb : Z * Post.t -> Z * Post.t -> bool)
    (r : Z * Post.t) (l : list (Z * Post.t)) : list (Z * Post.t) :=
  match l with
  | [] => [r]
  | x :: l' => if leb r x then r :: x :: l' else x :: insert_row leb r l'
  end.

Fixpoint order_by (leb : Z * Post.t -> Z * Post.t -> bool)
    (l : list (Z * Post.t)) : list (Z * Post.t) :=
  match l with
  | [] => []
  | x :: l' => insert_row leb x (order_by leb l')
  end.

(** [Post.objects.all()] evaluated: every row of the table, in the
    order [Meta.ordering] asks for. *)
Definition all (table : gmap Z Post.t) : list Post.t :=
  map snd (order_by (order_leb Post.Meta_ordering) (map_to_list table)).

End PostManager.

(** ** The database and the operations the models expose *)

Record DB : Type := mkDB {
  categories : gmap Z Category.t;
  sources    : gmap Z Source.t;
  posts      : gmap Z Post.t
}.

(** What a call hands back to its caller. *)
Inductive Value : Type :=
| VNone
| VStr (s : string)
| VInt (n : Z)
| VRaise (e : Exn).

Definition value_of_unit (r : Result unit) : Value :=
  match r with Ok _ => VNone | Raise e => VRaise e end.

Definition value_of_int (r : Result Z) : Value :=
  match r with Ok n => VInt n | Raise e => VRaise e end.

Definition value_of_optstr (r : option string) : Value :=
  match r with Some s => VStr s | None => VNone end.

Definition value_of_str (r : Result string) : Value :=
  match r with Ok s => VStr s | Raise e => VRaise e end.

(** One call on a model instance.  The mutators carry the instance they
    are called on (whatever the caller holds, possibly stale); the
    clock-reading properties carry the clock reading. *)
Inductive Op : Type :=
| post_mark_read (self : Post.t)
| post_unmark_read (self : Post.t)
| post_toggle_starred (self : Post.t)
| post_title_url_encoded (self : Post.t)
| post_recast_link (self : Post.t)
| enclosure_recast_link (self : Enclosure.t)
| source_unread_posts_count (self : Source.t)
| source_best_link (self : Source.t)
| source_display_name (self : Source.t)
| source_garden_style (self : Source.t) (now : Py.datetime)
| source_health_box (self : Source.t) (now : Py.datetime)
| category_unread_posts_count (self : Category.t).

Definition with_posts (db : DB) (table : gmap Z Post.t) : DB :=
  {| categories := categories db; sources := sources db; posts := table |}.

Definition exec (op : Op) (db : DB) : DB * Value :=
  match op with
  | post_mark_read self =>
      let e := Post.mark_read self (posts db) in
      (with_posts db (Post.table_after e), value_of_unit (Post.outcome e))
  | post_unmark_read self =>
      let e := Post.unmark_read self (posts db) in
      (with_posts db (Post.table_after e), value_of_unit (Post.outcome e))
  | post_toggle_starred self =>
      let e := Post.toggle_starred self (posts db) in
      (with_posts db (Post.table_after e), value_of_unit (Post.outcome e))
  | post_title_url_encoded self =>
      (db, value_of_optstr (Post.title_url_encoded self))
  | post_recast_link self => (db, value_of_str (Post.recast_link self))
  | enclosure_recast_link self =>
      (db, value_of_str (Enclosure.recast_link self))
  | source_unread_posts_count self =>
      (db, value_of_int (Source.unread_posts_count self (posts db)))
  | source_best_link self => (db, VStr (Source.best_link self))
  | source_display_name self => (db, VStr (Source.display_name self))
  | source_garden_style self now => (db, VStr (Source.garden_style self now))
  | source_health_box self now => (db, VStr (Source.health_box self now))
  | category_unread_posts_count self =>
      (db, value_of_int (Category.unread_posts_count self (sources db) (posts db)))
  end.

(** A session: the calls made one after the other, a raised exception
    being caught by the caller. *)
Fixpoint run (ops : list Op) (db : DB) : DB :=
  match ops with
  | [] => db
  | op :: ops' => run ops' (exec op db).1
  end.

(** ** Vocabulary of the statements *)

(** Two posts that agree on every field except possibly [read]. *)
Definition same_but_read (p q : Post.t) : Prop :=
  Post.id p = Post.id q /\ Post.source p = Post.source q
  /\ Post.title p = Post.title q /\ Post.body p = Post.body q
  /\ Post.link p = Post.link q /\ Post.found p = Post.found q
  /\ Post.created p = Post.created q /\ Post.guid p = Post.guid q
  /\ Post.author p = Post.author q /\ Post.index p = Post.index q
  /\ Post.image_url p = Post.image_url q
  /\ Post.starred p = Post.starred q.

(** Two posts that agree on every field except possibly [starred]. *)
Definition same_but_starred (p q : Post.t) : Prop :=
  Post.id p = Post.id q /\ Post.source p = Post.source q
  /\ Post.title p = Post.title q /\ Post.body p = Post.body q
  /\ Post.link p = Post.link q /\ Post.found p = Post.found q
  /\ Post.created p = Post.created q /\ Post.guid p = Post.guid q
  /\ Post.author p = Post.author q /\ Post.index p = Post.index q
  /\ Post.image_url p = Post.image_url q
  /\ Post.read p = Post.read q.

(** A nullable string that holds something: neither [None] nor empty. *)
Definition filled (x : option string) : option string :=
  match x with
  | Some s => if String.eqb s EmptyString then None else Some s
  | None => None
  end.

(** The fallback chain as the prose gives it: [name], else [site_url],
    else [feed_url]. *)
Definition fallback_chain (s : Source.t) : string :=
  match filled (Source.name s), filled (Source.site_url s) with
  | Some name, _ => name
  | None, Some site_url => site_url
  | None, None => Source.feed_url s
  end.

(** The Unix epoch, before which no poll of this program can happen. *)
Definition unix_epoch : Py.datetime := Py.datetime_utc 1970 1 1.

(** One lowercase hexadecimal digit, as the prose means it. *)
Definition lower_hex (d : Z) : ascii :=
  match d with
  | 0 => "0" | 1 => "1" | 2 => "2" | 3 => "3" | 4 => "4" | 5 => "5"
  | 6 => "6" | 7 => "7" | 8 => "8" | 9 => "9" | 10 => "a" | 11 => "b"
  | 12 => "c" | 13 => "d" | 14 => "e" | 15 => "f" | _ => "?"
  end%char.

(** A channel value rendered as two lowercase hexadecimal digits. *)
Definition two_hex (n : Z) : string :=
  String (lower_hex (n / 16)) (String (lower_hex (n mod 16)) EmptyString).

(** [d]: the days elapsed since [last_change], halved and rounded down. *)
Definition staleness (now last_change : Py.datetime) : Z :=
  (now - last_change) / (2 * Py.us_per_day).

Definition red_level (d : Z) : Z := Z.min d 255.
Definition green_level (d : Z) : Z := Z.max (255 - d) 0.

(** The health indicator as the prose gives it. *)
Definition health_box_spec (s : Source.t) (now : Py.datetime) : string :=
  if Source.live s then
    match Source.last_change s, Source.last_success s with
    | Some last_change, Some _ =>
        let d := staleness now last_change in
        "#" +:+ two_hex (red_level d) +:+ two_hex (green_level d) +:+ "00"
    | _, _ => "#F00;"
    end
  else "#ccc;".

(** [last_change], when set, is not later than the clock reading. *)
Definition not_ahead (s : Source.t) (now : Py.datetime) : Prop :=
  match Source.last_change s with
  | Some last_change => last_change <= now
  | None => True
  end.

(** The clock is consulted only for a live Source with both timestamps. *)
Definition reads_clock (s : Source.t) : bool :=
  Source.live s
  && match Source.last_change s, Source.last_success s with
     | Some _, Some _ => true
     | _, _ => false
     end.

(** The order the prose asks for: ascending [index]. *)
Definition by_index (a b : Z * Post.t) : Prop :=
  Post.index a.2 <= Post.index b.2.

(** The number of Posts of Source [pk] whose [read] is false: the size
    of that part of table [feeds_post]. *)
Definition source_unread (pk : Z) (posts : gmap Z Post.t) : nat :=
  size (filter (fun r : Z * Post.t =>
                  Post.source r.2 = pk /\ Post.read r.2 = false) posts).

(** A row of [feeds_post] that is unread and whose Source is stored and
    belongs to Category [c]. *)
Definition unread_in_category (sources : gmap Z Source.t) (c : Z)
    (r : Z * Post.t) : bool :=
  negb (Post.read r.2)
  && match sources !! Post.source r.2 with
     | Some s => bool_decide (Source.category s = Some c)
     | None => false
     end.

(** The number of unread Posts over all Sources of Category [c]. *)
Definition category_unread (c : Z) (sources : gmap Z Source.t)
    (posts : gmap Z Post.t) : nat :=
  size (filter (fun r : Z * Post.t => unread_in_category sources c r = true)
          posts).

(** The stored Sources of Category [c], with their keys. *)
Definition sources_of (c : Z) (sources : gmap Z Source.t)
    : list (Z * Source.t) :=
  filter (fun r : Z * Source.t => Source.category r.2 = Some c)
    (map_to_list sources).

(** ** Sample data for the worked instances *)

(** A saved post and the one-row table that holds it. *)
Definition sample_post : Post.t :=
  {| Post.id := Some 1; Post.source := 7; Post.title := [72; 105];
     Post.body := "text"; Post.link := None; Post.found := Some 5;
     Post.created := 3; Post.guid := Some "g"; Post.author := None;
     Post.index := 1; Post.image_url := None;
     Post.read := false; Post.starred := false |}.

Definition sample_posts : gmap Z Post.t := {[ 1 := sample_post ]}.

(** A subscribed source and a database that holds it with one post. *)
Definition sample_source : Source.t :=
  {| Source.id := Some 7; Source.name := Some "Blog";
     Source.site_url := Some "https://example.org/";
     Source.feed_url := "https://example.org/feed";
     Source.image_url := None; Source.description := None;
     Source.last_polled := None; Source.due_poll := Source.due_poll_default;
     Source.etag := None; Source.last_modified := None;
     Source.last_result := None; Source.interval := 400;
     Source.last_success := Some (Py.datetime_utc 2024 1 1);
     Source.last_change := Some (Py.datetime_utc 2024 1 1);
     Source.live := true; Source.status_code := 200;
     Source.last_302_url := None; Source.last_302_start := None;
     Source.max_index := 1; Source.num_subs := 1;
     Source.is_cloudflare := false; Source.category := Some 3 |}.

(** The same subscription as a second instance, fetched after more
    polls: the polling state differs, the displayed fields do not. *)
Definition sample_source_later : Source.t :=
  {| Source.id := Some 7; Source.name := Some "Blog";
     Source.site_url := Some "https://example.org/";
     Source.feed_url := "https://example.org/feed";
     Source.image_url := None; Source.description := None;
     Source.last_polled := Some (Py.datetime_utc 2024 1 9);
     Source.due_poll := Py.datetime_utc 2024 1 10;
     Source.etag := Some "v2"; Source.last_modified := None;
     Source.last_result := Some "OK"; Source.interval := 900;
     Source.last_success := Some (Py.datetime_utc 2024 1 1);
     Source.last_change := Some (Py.datetime_utc 2024 1 1);
     Source.live := true; Source.status_code := 304;
     Source.last_302_url := None; Source.last_302_start := None;
     Source.max_index := 5; Source.num_subs := 2;
     Source.is_cloudflare := false; Source.category := Some 3 |}.

Definition sample_db : DB :=
  {| categories := {[ 3 := {| Category.id := Some 3; Category.name := "News" |} ]};
     sources := {[ 7 := sample_source ]};
     posts := sample_posts |}.

(** A Source whose [last_change] lies two days after the clock reading
    [Py.datetime_utc 2024 1 1]. *)
Definition ahead_source : Source.t :=
  {| Source.id := Some 8; Source.name := None; Source.site_url := None;
     Source.feed_url := "https://example.org/feed";
     Source.image_url := None; Source.description := None;
     Source.last_polled := None; Source.due_poll := Source.due_poll_default;
     Source.etag := None; Source.last_modified := None;
     Source.last_result := None; Source.interval := 400;
     Source.last_success := Some (Py.datetime_utc 2024 1 3);
     Source.last_change := Some (Py.datetime_utc 2024 1 3);
     Source.live := true; Source.status_code := 200;
     Source.last_302_url := None; Source.last_302_start := None;
     Source.max_index := 0; Source.num_subs := 1;
     Source.is_cloudflare := false; Source.category := None |}.

(** A suspended Source ([live] false) whose [last_change] also lies two
    days after the clock reading [Py.datetime_utc 2024 1 1]. *)
Definition suspended_ahead_source : Source.t :=
  {| Source.id := Some 9; Source.name := None; Source.site_url := None;
     Source.feed_url := "https://example.org/feed";
     Source.image_url := None; Source.description := None;
     Source.last_polled := None; Source.due_poll := Source.due_poll_default;
     Source.etag := None; Source.last_modified := None;
     Source.last_result := None; Source.interval := 400;
     Source.last_success := Some (Py.datetime_utc 2024 1 3);
     Source.last_change := Some (Py.datetime_utc 2024 1 3);
     Source.live := false; Source.status_code := 200;
     Source.last_302_url := None; Source.last_302_start := None;
     Source.max_index := 0; Source.num_subs := 1;
     Source.is_cloudflare := false; Source.category := None |}.

Definition sample_post2 : Post.t :=
  {| Post.id := Some 2; Post.source := 7; Post.title := [];
     Post.body := "more"; Post.link := None; Post.found := Some 9;
     Post.created := 8; Post.guid := None; Post.author := None;
     Post.index := 0; Post.image_url := None;
     Post.read := true; Post.starred := false |}.

Definition two_posts : gmap Z Post.t := <[ 2 := sample_post2 ]> sample_posts.

(** ** Vocabulary of the further properties *)

(** Two posts that agree on every field except possibly the two flags
    [read] and [starred]. *)
Definition same_but_flags (p q : Post.t) : Prop :=
  Post.id p = Post.id q /\ Post.source p = Post.source q
  /\ Post.title p = Post.title q /\ Post.body p = Post.body q
  /\ Post.link p = Post.link q /\ Post.found p = Post.found q
  /\ Post.created p = Post.created q /\ Post.guid p = Post.guid q
  /\ Post.author p = Post.author q /\ Post.index p = Post.index q
  /\ Post.image_url p = Post.image_url q.

(** How a flag-writing method ends, by the state of the instance and of
    the table it is called on. *)
Definition expected_outcome (self : Post.t) (table : gmap Z Post.t)
    : Result unit :=
  match Post.id self with
  | None => Raise ValueError
  | Some pk =>
      match table !! pk with
      | None => Raise DatabaseError
      | Some _ => Ok tt
      end
  end.

(** The three flag-writing methods of Post. *)
Definition flag_methods : list (Post.t -> gmap Z Post.t -> Post.effect) :=
  [Post.mark_read; Post.unmark_read; Post.toggle_starred].

(** The Source a Post row points to is stored and belongs to Category
    [c]. *)
Definition post_in_category (sources : gmap Z Source.t) (c : Z)
    (row : Post.t) : bool :=
  match sources !! Post.source row with
  | Some s => bool_decide (Source.category s = Some c)
  | None => false
  end.

(** A whole number of days as a duration. *)
Definition days_long (n : Z) : Py.timedelta := n * Py.us_per_day.

(** 1 for a true test, 0 for a false one. *)
Definition one_if (b : bool) : Z := if b then 1 else 0.

(** A code point that UTF-8 refuses: a surrogate, or a number outside
    the code space. *)
Definition unencodable (c : Z) : Prop :=
  c < 0 \/ 55296 <= c <= 57343 \/ 1114112 <= c.

(** The value of a decimal digit character. *)
Definition digit_of (c : ascii) : Z := Z.of_N (N_of_ascii c) - 48.

(** Reading a string as decimal digits, most significant first, on top
    of the value [v] read so far. *)
Fixpoint dec_acc (s : string) (v : Z) : Z :=
  match s with
  | EmptyString => v
  | String c s' => dec_acc s' (v * 10 + digit_of c)
  end.

(** Reading an optional minus sign and then decimal digits. *)
Definition signed_value (s : string) : Z :=
  match s with
  | String "-" r => - dec_acc r 0
  | _ => dec_acc s 0
  end.

(** A Post with its two flags blanked: everything a call on the flags
    leaves of it. *)
Definition without_flags (p : Post.t) : Post.t :=
  Post.set_read false (Post.set_starred false p).

(** The [index] values stored in a table of Posts. *)
Definition stored_indexes (table : gmap Z Post.t) : list Z :=
  map (fun r : Z * Post.t => Post.index r.2) (map_to_list table).

(** ** Post: the read and starred flags *)

Section PostFlags.

Variable self : Post.t.
Variable table : gmap Z Post.t.

Lemma same_but_read_set v p : same_but_read p (Post.set_read v p).
Proof. unfold same_but_read; simpl; tauto. Qed.

Lemma same_but_starred_set v p : same_but_starred p (Post.set_starred v p).
Proof. unfold same_but_starred; simpl; tauto. Qed.

(** [save] on one valid column, spelled out. *)
Lemma save_read_unfold (p : Post.t) (tbl : gmap Z Post.t) :
  Post.save p ["read"] tbl =
  match Post.id p with
  | None => (tbl, Raise ValueError)
  | Some pk =>
      match tbl !! pk with
      | None => (tbl, Raise DatabaseError)
      | Some row => (<[pk := Post.set_read (Post.read p) row]> tbl, Ok tt)
      end
  end.
Proof. reflexivity. Qed.

Lemma save_starred_unfold (p : Post.t) (tbl : gmap Z Post.t) :
  Post.save p ["starred"] tbl =
  match Post.id p with
  | None => (tbl, Raise ValueError)
  | Some pk =>
      match tbl !! pk with
      | None => (tbl, Raise DatabaseError)
      | Some row => (<[pk := Post.set_starred (Post.starred p) row]> tbl, Ok tt)
      end
  end.
Proof. reflexivity. Qed.

Lemma mark_read_self :
  Post.self_after (Post.mark_read self table) = Post.set_read true self.
Proof.
  unfold Post.mark_read. rewrite save_read_unfold. simpl.
  destruct (Post.id self) as [pk|]; [destruct (table !! pk)|]; reflexivity.
Qed.

Lemma unmark_read_self :
  Post.self_after (Post.unmark_read self table) = Post.set_read false self.
Proof.
  unfold Post.unmark_read. rewrite save_read_unfold. simpl.
  destruct (Post.id self) as [pk|]; [destruct (table !! pk)|]; reflexivity.
Qed.

Lemma toggle_starred_self :
  Post.self_after (Post.toggle_starred self table)
  = Post.set_starred (negb (Post.starred self)) self.
Proof.
  unfold Post.toggle_starred. rewrite save_starred_unfold. simpl.
  destruct (Post.id self) as [pk|]; [destruct (table !! pk)|]; reflexivity.
Qed.

(** The stored rows after a write of [read]: the row under the
    instance's key takes the value, every other row stays. *)
Lemma write_read_rows (v : bool) (k : Z) (row : Post.t) :
  table !! k = Some row ->
  (Post.save (Post.set_read v self) ["read"] table).1 !! k
  = Some (if decide (Post.id self = Some k) then Post.set_read v row else row).
Proof.
  intros Hrow. rewrite save_read_unfold. simpl.
  destruct (Post.id self) as [pk|] eqn:Hid; simpl.
  - destruct (decide (pk = k)) as [->|Hne].
    + rewrite Hrow. simpl. rewrite lookup_insert_eq.
      destruct (decide (Some k = Some k)); [reflexivity|congruence].
    + destruct (decide (Some pk = Some k)); [congruence|].
      destruct (table !! pk); simpl; [rewrite lookup_insert_ne|]; done.
  - destruct (decide (None = Some k)); [congruence|done].
Qed.

Lemma write_starred_rows (v : bool) (k : Z) (row : Post.t) :
  table !! k = Some row ->
  (Post.save (Post.set_starred v self) ["starred"] table).1 !! k
  = Some (if decide (Post.id self = Some k)
          then Post.set_starred v row else row).
Proof.
  intros Hrow. rewrite save_starred_unfold. simpl.
  destruct (Post.id self) as [pk|] eqn:Hid; simpl.
  - destruct (decide (pk = k)) as [->|Hne].
    + rewrite Hrow. simpl. rewrite lookup_insert_eq.
      destruct (decide (Some k = Some k)); [reflexivity|congruence].
    + destruct (decide (Some pk = Some k)); [congruence|].
      destruct (table !! pk); simpl; [rewrite lookup_insert_ne|]; done.
  - destruct (decide (None = Some k)); [congruence|done].
Qed.

Lemma mark_read_table :
  Post.table_after (Post.mark_read self table)
  = (Post.save (Post.set_read true self) ["read"] table).1.
Proof.
  unfold Post.mark_read.
  destruct (Post.save (Post.set_read true self) ["read"] table); reflexivity.
Qed.

Lemma unmark_read_table :
  Post.table_after (Post.unmark_read self table)
  = (Post.save (Post.set_read false self) ["read"] table).1.
Proof.
  unfold Post.unmark_read.
  destruct (Post.save (Post.set_read false self) ["read"] table); reflexivity.
Qed.

Lemma toggle_starred_table :
  Post.table_after (Post.toggle_starred self table)
  = (Post.save (Post.set_starred (negb (Post.starred self)) self)
               ["starred"] table).1.
Proof.
  unfold Post.toggle_starred.
  destruct (Post.save (Post.set_starred (negb (Post.starred self)) self)
                      ["starred"] table); reflexivity.
Qed.

End PostFlags.

(** C2. [mark_read] sets [read] to true and [unmark_read] sets it to
    false, on the instance and on the stored row of that instance, and
    neither touches any other field of the instance nor any other field
    or row of the table; [unmark_read] after [mark_read] leaves [read]
    false again. *)
Theorem mark_read_unmark_read
    (self : Post.t) (table : gmap Z Post.t) (k : Z) (row : Post.t)
    (Hrow : table !! k = Some row) :
  let m := Post.mark_read self table in
  let u := Post.unmark_read self table in
  let um := Post.unmark_read (Post.self_after m) (Post.table_after m) in
  (Post.read (Post.self_after m) = true
   /\ same_but_read self (Post.self_after m)
   /\ exists row', Post.table_after m !! k = Some row'
        /\ same_but_read row row'
        /\ (Post.id self = Some k -> Post.read row' = true)
        /\ (Post.id self <> Some k -> row' = row))
  /\ (Post.read (Post.self_after u) = false
      /\ same_but_read self (Post.self_after u)
      /\ exists row', Post.table_after u !! k = Some row'
           /\ same_but_read row row'
           /\ (Post.id self = Some k -> Post.read row' = false)
           /\ (Post.id self <> Some k -> row' = row))
  /\ (Post.read (Post.self_after um) = false
      /\ same_but_read self (Post.self_after um)
      /\ exists row', Post.table_after um !! k = Some row'
           /\ same_but_read row row'
           /\ (Post.id self = Some k -> Post.read row' = false)
           /\ (Post.id self <> Some k -> row' = row)).
Proof.
  intros m u um.
  assert (Hm : Post.table_after m !! k
               = Some (if decide (Post.id self = Some k)
                       then Post.set_read true row else row)).
  { subst m. rewrite mark_read_table. by apply write_read_rows. }
  split; [|split].
  - subst m. rewrite mark_read_self. split; [reflexivity|].
    split; [apply same_but_read_set|].
    rewrite mark_read_table, (write_read_rows _ _ true k row Hrow).
    eexists; split; [reflexivity|].
    destruct (decide (Post.id self = Some k)).
    + split; [apply same_but_read_set|]. split; [reflexivity|tauto].
    + unfold same_but_read. tauto.
  - subst u. rewrite unmark_read_self. split; [reflexivity|].
    split; [apply same_but_read_set|].
    rewrite unmark_read_table, (write_read_rows _ _ false k row Hrow).
    eexists; split; [reflexivity|].
    destruct (decide (Post.id self = Some k)).
    + split; [apply same_but_read_set|]. split; [reflexivity|tauto].
    + unfold same_but_read. tauto.
  - subst um. rewrite unmark_read_self, unmark_read_table.
    rewrite (write_read_rows _ _ false k _ Hm).
    subst m. rewrite mark_read_self. simpl.
    split; [reflexivity|].
    split; [unfold same_but_read; simpl; tauto|].
    eexists; split; [reflexivity|].
    destruct (decide (Post.id self = Some k)).
    + split; [unfold same_but_read; simpl; tauto|].
      split; [reflexivity|tauto].
    + unfold same_but_read. tauto.
Qed.

Lemma mark_read_unmark_read_witness :
  sample_posts !! 1 = Some sample_post
  /\ Post.read (Post.self_after (Post.mark_read sample_post sample_posts)) = true.
Proof.
  split; [reflexivity|].
  exact (proj1 (proj1 (mark_read_unmark_read sample_post sample_posts 1
                         sample_post eq_refl))).
Defined.

(** Writing [read] and writing [starred] to the table commute. *)
Lemma save_read_starred_commute (self : Post.t) (table : gmap Z Post.t)
    (r s : bool) :
  (Post.save (Post.set_starred s (Post.set_read r self)) ["starred"]
     (Post.save (Post.set_read r self) ["read"] table).1).1
  = (Post.save (Post.set_read r (Post.set_starred s self)) ["read"]
       (Post.save (Post.set_starred s self) ["starred"] table).1).1.
Proof.
  rewrite !save_read_unfold, !save_starred_unfold. simpl.
  destruct (Post.id self) as [pk|]; [|reflexivity].
  destruct (table !! pk) as [row|] eqn:Hrow; simpl.
  - rewrite !lookup_insert_eq. simpl. rewrite !insert_insert_eq. reflexivity.
  - rewrite Hrow. reflexivity.
Qed.

(** C3. [toggle_starred] negates [starred] on the instance and on its
    stored row and touches nothing else, [read] included; a second
    toggle brings the instance and the row back; the flag always moves,
    so no state is final; and toggling commutes with [mark_read] and
    [unmark_read], on the instance and on the table. *)
Theorem toggle_starred_involutive
    (self : Post.t) (table : gmap Z Post.t) (k : Z) (row : Post.t)
    (Hrow : table !! k = Some row) :
  let t1 := Post.toggle_starred self table in
  let t2 := Post.toggle_starred (Post.self_after t1) (Post.table_after t1) in
  (Post.starred (Post.self_after t1) = negb (Post.starred self)
   /\ Post.starred (Post.self_after t1) <> Post.starred self
   /\ same_but_starred self (Post.self_after t1)
   /\ exists row', Post.table_after t1 !! k = Some row'
        /\ same_but_starred row row'
        /\ (Post.id self = Some k ->
            Post.starred row' = negb (Post.starred self))
        /\ (Post.id self <> Some k -> row' = row))
  /\ (Post.self_after t2 = self
      /\ exists row', Post.table_after t2 !! k = Some row'
           /\ same_but_starred row row'
           /\ (Post.id self = Some k -> Post.starred row' = Post.starred self)
           /\ (Post.id self <> Some k -> row' = row))
  /\ (forall r : bool,
        let mark := if r then Post.mark_read else Post.unmark_read in
        let a := mark self table in
        let ab := Post.toggle_starred (Post.self_after a) (Post.table_after a) in
        let ba := mark (Post.self_after t1) (Post.table_after t1) in
        Post.self_after ab = Post.self_after ba
        /\ Post.table_after ab = Post.table_after ba).
Proof.
  intros t1 t2.
  assert (H1 : Post.table_after t1 !! k
               = Some (if decide (Post.id self = Some k)
                       then Post.set_starred (negb (Post.starred self)) row
                       else row)).
  { subst t1. rewrite toggle_starred_table. by apply write_starred_rows. }
  split; [|split].
  - subst t1. rewrite toggle_starred_self. simpl.
    split; [reflexivity|].
    split; [by destruct (Post.starred self)|].
    split; [apply same_but_starred_set|].
    rewrite H1. eexists; split; [reflexivity|].
    destruct (decide (Post.id self = Some k)).
    + split; [apply same_but_starred_set|]. split; [reflexivity|tauto].
    + unfold same_but_starred. tauto.
  - subst t2. rewrite toggle_starred_self, toggle_starred_table.
    rewrite (write_starred_rows _ _ _ k _ H1).
    subst t1. rewrite toggle_starred_self. simpl.
    rewrite negb_involutive.
    split; [by destruct self|].
    eexists; split; [reflexivity|].
    destruct (decide (Post.id self = Some k)).
    + split; [unfold same_but_starred; simpl; tauto|].
      split; [reflexivity|tauto].
    + unfold same_but_starred. tauto.
  - intros r mark a ab ba. subst ab ba a t1 mark.
    destruct r.
    + rewrite toggle_starred_self, mark_read_self, toggle_starred_table,
        !mark_read_table, mark_read_self, toggle_starred_self,
        toggle_starred_table.
      split; [reflexivity|]. simpl. apply save_read_starred_commute.
    + rewrite toggle_starred_self, unmark_read_self, toggle_starred_table,
        !unmark_read_table, unmark_read_self, toggle_starred_self,
        toggle_starred_table.
      split; [reflexivity|]. simpl. apply save_read_starred_commute.
Qed.

Lemma toggle_starred_involutive_witness :
  sample_posts !! 1 = Some sample_post
  /\ Post.starred
       (Post.self_after (Post.toggle_starred sample_post sample_posts)) = true.
Proof.
  split; [reflexivity|].
  exact (proj1 (proj1 (toggle_starred_involutive sample_post sample_posts 1
                         sample_post eq_refl))).
Defined.

(** ** Source: what the exposed operations leave alone *)

(** No operation writes to table [feeds_source] (or to the categories). *)
Lemma exec_sources (op : Op) (db : DB) :
  sources (exec op db).1 = sources db.
Proof. destruct op; reflexivity. Qed.

Lemma run_sources (ops : list Op) (db : DB) :
  sources (run ops db) = sources db.
Proof.
  revert db. induction ops as [|op ops IH]; intros db; simpl.
  - reflexivity.
  - rewrite IH. apply exec_sources.
Qed.

Lemma run_app (ops1 ops2 : list Op) (db : DB) :
  run (ops1 ++ ops2) db = run ops2 (run ops1 db).
Proof.
  revert db. induction ops1 as [|op ops1 IH]; intros db; simpl; [reflexivity|].
  apply IH.
Qed.

(** C1. Along every sequence of the exposed operations ([mark_read],
    [unmark_read], [toggle_starred] and the reads of the derived
    properties) the stored [max_index] of every Source never decreases:
    a Source present after a first run of calls is still present after
    any further calls, with a [max_index] at least as large. *)
Theorem max_index_non_decreasing
    (ops1 ops2 : list Op) (db : DB) (pk : Z) (s1 : Source.t)
    (Hs1 : sources (run ops1 db) !! pk = Some s1) :
  exists s2, sources (run (ops1 ++ ops2) db) !! pk = Some s2
             /\ Source.max_index s1 <= Source.max_index s2.
Proof.
  exists s1. split; [|lia].
  rewrite run_app, run_sources. exact Hs1.
Qed.

Lemma max_index_non_decreasing_witness :
  exists s2,
    sources (run ([post_mark_read sample_post]
                  ++ [post_toggle_starred sample_post;
                      source_health_box sample_source 0;
                      post_unmark_read sample_post]) sample_db) !! 7 = Some s2
    /\ Source.max_index sample_source <= Source.max_index s2.
Proof.
  apply (max_index_non_decreasing [post_mark_read sample_post]
           [post_toggle_starred sample_post;
            source_health_box sample_source 0;
            post_unmark_read sample_post] sample_db 7 sample_source).
  reflexivity.
Defined.

(** ** Defaults *)

(** The default [due_poll] lies before the Unix epoch. *)
Lemma due_poll_default_before_epoch : Source.due_poll_default < unix_epoch.
Proof. reflexivity. Qed.

(** C6. A Source built from its [feed_url] alone has [due_poll] at
    1900-01-01 UTC, which is earlier than every instant from the Unix
    epoch on, [interval] 400, [live] true, [max_index] 0, [status_code] 0
    and [is_cloudflare] false; a Post built without flags has [read] and
    [starred] false. *)
Theorem field_defaults
    (feed_url : string)
    (source : Z) (title : Py.unicode) (body : string)
    (created : Py.datetime) (index : Z) :
  let s := Source.create feed_url in
  let p := Post.create source title body created index in
  Source.feed_url s = feed_url
  /\ Source.due_poll s = Py.datetime_utc 1900 1 1
  /\ Py.ymd2ord 1900 1 1 = 693596
  /\ (forall now : Py.datetime, unix_epoch <= now -> Source.due_poll s < now)
  /\ Source.interval s = 400
  /\ Source.live s = true
  /\ Source.max_index s = 0
  /\ Source.status_code s = 0
  /\ Source.is_cloudflare s = false
  /\ Post.read p = false
  /\ Post.starred p = false.
Proof.
  intros s p. repeat split.
  intros now Hnow. pose proof due_poll_default_before_epoch.
  change (Source.due_poll s) with Source.due_poll_default. lia.
Qed.

Lemma field_defaults_witness :
  Source.due_poll (Source.create "https://example.org/feed")
  < Py.datetime_utc 2024 1 1.
Proof.
  apply (field_defaults "https://example.org/feed" 7 [] "b" 0 1).
  unfold unix_epoch. vm_compute. congruence.
Defined.

(** ** Post.title_url_encoded *)

(** What the body computes before it falls off its end: the quoted
    title with the leading [X=] cut off (left in place when nothing
    follows it), or the empty string after a failed encoding. *)
Lemma title_url_encoded_local (self : Post.t) :
  Post.title_url_encoded_ret self =
  match Py.quote_plus (Post.title self) with
  | Some q => (if String.eqb q EmptyString then "X=" else q, false)
  | None => (EmptyString, true)
  end.
Proof.
  unfold Post.title_url_encoded_ret, Py.urlencode_X.
  destruct (Py.quote_plus (Post.title self)) as [q|]; [|reflexivity].
  destruct q as [|c q]; [reflexivity|]. reflexivity.
Qed.

(** C9. The property [title_url_encoded] evaluates to [None] for every
    Post, whether the encoding of the title succeeds or fails: the value
    the body computes is never returned. *)
Theorem title_url_encoded_is_None (self : Post.t) (db : DB) :
  Post.title_url_encoded self = None
  /\ exec (post_title_url_encoded self) db = (db, VNone).
Proof.
  assert (H : Post.title_url_encoded self = None).
  { unfold Post.title_url_encoded.
    destruct (Post.title_url_encoded_ret self); reflexivity. }
  split; [exact H|]. simpl. rewrite H. reflexivity.
Qed.

(** ** Source.display_name *)

(** C10. [display_name] is the fallback chain [name], [site_url],
    [feed_url], each taken when it is neither [None] nor empty and the
    last unconditionally; so a non-empty [feed_url] makes [display_name]
    non-empty. *)
Theorem display_name_fallback (self : Source.t) :
  Source.display_name self = fallback_chain self
  /\ (forall n, Source.name self = Some n -> n <> EmptyString ->
        Source.display_name self = n)
  /\ (forall u, filled (Source.name self) = None ->
        Source.site_url self = Some u -> u <> EmptyString ->
        Source.display_name self = u)
  /\ (filled (Source.name self) = None ->
      filled (Source.site_url self) = None ->
      Source.display_name self = Source.feed_url self)
  /\ (Source.feed_url self <> EmptyString ->
      Source.display_name self <> EmptyString).
Proof.
  unfold Source.display_name, Source.best_link, fallback_chain, filled.
  destruct (Source.name self) as [n|], (Source.site_url self) as [u|];
    repeat match goal with
           | |- context [String.eqb ?x EmptyString] =>
               destruct (String.eqb_spec x EmptyString)
           end;
    repeat split; intros; subst; try congruence.
Qed.

Lemma display_name_fallback_witness :
  Source.display_name (Source.create "https://example.org/feed")
  <> EmptyString.
Proof.
  apply (display_name_fallback (Source.create "https://example.org/feed")).
  simpl. congruence.
Defined.

(** ** Source.health_box and Source.garden_style *)

Lemma format_02x_table :
  forallb (fun n => String.eqb (Py.format_02x n) (two_hex n))
          (map Z.of_nat (seq 0 256)) = true.
Proof. vm_compute. reflexivity. Qed.

(** On a byte value ["%02x"] prints exactly two lowercase digits. *)
Lemma format_02x_byte (n : Z) :
  0 <= n <= 255 -> Py.format_02x n = two_hex n.
Proof.
  intros Hn. pose proof format_02x_table as Ht.
  rewrite forallb_forall in Ht.
  apply String.eqb_eq, Ht.
  apply in_map_iff. exists (Z.to_nat n). split; [lia|].
  apply in_seq. lia.
Qed.

(** For a duration that is not negative, [int(dd.days / 2)] is the
    duration in days, halved and rounded down. *)
Lemma int_half_days (now last_change : Py.datetime) :
  last_change <= now ->
  Py.int_half (Py.days (Py.sub now last_change)) = staleness now last_change.
Proof.
  intros Hle. unfold Py.int_half, Py.days, Py.sub, staleness.
  assert (Hpos : 0 < Py.us_per_day) by reflexivity.
  rewrite Z.quot_div_nonneg; [|apply Z.div_pos; lia|lia].
  rewrite Z.div_div by lia. rewrite (Z.mul_comm 2). reflexivity.
Qed.

Lemma staleness_nonneg (now last_change : Py.datetime) :
  last_change <= now -> 0 <= staleness now last_change.
Proof.
  intros Hle. unfold staleness. apply Z.div_pos; [lia|reflexivity].
Qed.

Lemma staleness_mono (now now' last_change : Py.datetime) :
  now <= now' -> staleness now last_change <= staleness now' last_change.
Proof.
  intros Hle. unfold staleness. apply Z.div_le_mono; [reflexivity|lia].
Qed.

(** C5, as amended.  For every Source [health_box] is ["#ccc;"] when
    not live and ["#F00;"] when live with [last_change] or
    [last_success] unset, whatever the clock and the timestamps.
    Otherwise, provided [last_change] is not later than the clock
    reading, it is ["#RRGG00"] with RR = min(d, 255) and
    GG = max(255 - d, 0), two lowercase hexadecimal digits each, where d
    is the days elapsed since [last_change], halved and rounded down; as
    the clock advances RR never falls and GG never rises. *)
Theorem health_box_formula
    (self : Source.t) (now now' : Py.datetime)
    (Hpast : reads_clock self = true -> not_ahead self now)
    (Hlater : now <= now') :
  Source.health_box self now = health_box_spec self now
  /\ Source.health_box self now' = health_box_spec self now'
  /\ (forall last_change, Source.last_change self = Some last_change ->
        last_change <= now ->
        0 <= red_level (staleness now last_change)
          <= red_level (staleness now' last_change)
        /\ red_level (staleness now' last_change) <= 255
        /\ 0 <= green_level (staleness now' last_change)
             <= green_level (staleness now last_change)
        /\ green_level (staleness now last_change) <= 255).
Proof.
  assert (Hbox : forall t, (reads_clock self = true -> not_ahead self t) ->
            Source.health_box self t = health_box_spec self t).
  { intros t Ht.
    unfold Source.health_box, health_box_spec, reads_clock, not_ahead in *.
    destruct (Source.live self); simpl in *; [|reflexivity].
    destruct (Source.last_change self) as [lc|]; [|reflexivity].
    destruct (Source.last_success self) as [ls|]; [|reflexivity].
    specialize (Ht eq_refl).
    rewrite (int_half_days t lc Ht).
    pose proof (staleness_nonneg t lc Ht) as Hd.
    set (d := staleness t lc) in *.
    unfold red_level, green_level.
    rewrite <- (format_02x_byte (Z.min d 255)) by lia.
    rewrite <- (format_02x_byte (Z.max (255 - d) 0)) by lia.
    destruct (Z.ltb_spec 255 d), (Z.ltb_spec (255 - d) 0);
      try lia;
      repeat first [rewrite Z.min_l by lia | rewrite Z.min_r by lia
                   | rewrite Z.max_l by lia | rewrite Z.max_r by lia];
      reflexivity. }
  split; [by apply Hbox|].
  split.
  { apply Hbox. intros Hclock. specialize (Hpast Hclock).
    unfold not_ahead in *.
    destruct (Source.last_change self); [lia|exact I]. }
  intros lc Hlc Hle.
  pose proof (staleness_nonneg now lc Hle).
  pose proof (staleness_mono now now' lc Hlater).
  unfold red_level, green_level. lia.
Qed.

Lemma health_box_formula_witness :
  Source.health_box sample_source (Py.datetime_utc 2024 1 11)
  = health_box_spec sample_source (Py.datetime_utc 2024 1 11)
  /\ Source.health_box suspended_ahead_source (Py.datetime_utc 2024 1 1)
     = health_box_spec suspended_ahead_source (Py.datetime_utc 2024 1 1).
Proof.
  split.
  - apply (health_box_formula sample_source (Py.datetime_utc 2024 1 11)
             (Py.datetime_utc 2024 2 1)).
    + intros _. vm_compute. congruence.
    + vm_compute. congruence.
  - apply (health_box_formula suspended_ahead_source
             (Py.datetime_utc 2024 1 1) (Py.datetime_utc 2024 1 1)).
    + intros Hclock. vm_compute in Hclock. discriminate.
    + vm_compute. congruence.
Defined.

(** C5 as first stated fails for a [last_change] later than the clock:
    two days ahead, [int] truncates to -1 and ["%02x"] prints ["-1"] and
    ["100"], so the result is no ["#RRGG00"] of seven characters. *)
Lemma health_box_ahead_of_clock :
  Source.health_box ahead_source (Py.datetime_utc 2024 1 1) = "#-110000"
  /\ String.length (Source.health_box ahead_source (Py.datetime_utc 2024 1 1))
     <> String.length ("#" +:+ two_hex 0 +:+ two_hex 0 +:+ "00")
  /\ Source.health_box ahead_source (Py.datetime_utc 2024 1 1)
     <> health_box_spec ahead_source (Py.datetime_utc 2024 1 1).
Proof.
  split; [vm_compute; reflexivity|].
  split; vm_compute; congruence.
Qed.

(** The two ends of the scale, read at [last_change] itself and 510
    days later. *)
Lemma colours_at_ends (s : Source.t) (last_change last_success : Py.datetime) :
  Source.live s = true ->
  Source.last_change s = Some last_change ->
  Source.last_success s = Some last_success ->
  Source.health_box s last_change = "#00ff00"
  /\ Source.garden_style s last_change = "background-color:#ffffff"
  /\ Source.health_box s (last_change + days_long 510) = "#ff0000"
  /\ Source.garden_style s (last_change + days_long 510)
     = "background-color:#ff0000;color:white".
Proof.
  intros Hlive Hchange Hsuccess.
  assert (H0 : staleness last_change last_change = 0).
  { unfold staleness. by rewrite Z.sub_diag. }
  assert (H510 : staleness (last_change + days_long 510) last_change = 255).
  { unfold staleness. by rewrite Z.add_simpl_l. }
  assert (Hle : last_change <= last_change + days_long 510).
  { assert (0 <= days_long 510) by (vm_compute; congruence). lia. }
  unfold Source.health_box, Source.garden_style.
  rewrite Hlive, Hchange, Hsuccess. simpl negb. cbv iota.
  rewrite (int_half_days last_change last_change) by lia.
  rewrite (int_half_days _ last_change Hle).
  rewrite H0, H510. repeat split; reflexivity.
Qed.

(** C4, as amended.  [display_name] is a function of the stored fields
    [name], [site_url] and [feed_url] alone.  [health_box] and
    [garden_style] are functions of the stored fields [live],
    [last_change] and [last_success] together with the clock reading:
    two evaluations on equal fields agree when made at the same clock
    reading; the clock plays no part when the Source is not live or one
    of the two timestamps is unset; and for every live Source with both
    timestamps there are two clock readings at which [health_box]
    differs and [garden_style] differs. *)
Theorem derived_properties_inputs
    (s1 s2 : Source.t) (now1 now2 : Py.datetime) :
  (Source.name s1 = Source.name s2 ->
   Source.site_url s1 = Source.site_url s2 ->
   Source.feed_url s1 = Source.feed_url s2 ->
   Source.display_name s1 = Source.display_name s2)
  /\ (Source.live s1 = Source.live s2 ->
      Source.last_change s1 = Source.last_change s2 ->
      Source.last_success s1 = Source.last_success s2 ->
      (reads_clock s1 = true -> now1 = now2) ->
      Source.health_box s1 now1 = Source.health_box s2 now2
      /\ Source.garden_style s1 now1 = Source.garden_style s2 now2)
  /\ (reads_clock s1 = true ->
      exists t1 t2 : Py.datetime,
        Source.health_box s1 t1 <> Source.health_box s1 t2
        /\ Source.garden_style s1 t1 <> Source.garden_style s1 t2).
Proof.
  split; [|split].
  - intros Hname Hsite Hfeed.
    unfold Source.display_name, Source.best_link.
    by rewrite <- Hname, <- Hsite, <- Hfeed.
  - intros Hlive Hchange Hsuccess Hclock.
    unfold Source.health_box, Source.garden_style, reads_clock in *.
    rewrite <- Hlive, <- Hchange, <- Hsuccess.
    destruct (Source.live s1); simpl in *; [|split; reflexivity].
    destruct (Source.last_change s1) as [lc|]; [|split; reflexivity].
    destruct (Source.last_success s1) as [ls|]; [|split; reflexivity].
    rewrite (Hclock eq_refl). split; reflexivity.
  - intros Hclock. unfold reads_clock in Hclock.
    destruct (Source.live s1) eqn:Hlive; [|discriminate].
    destruct (Source.last_change s1) as [lc|] eqn:Hchange; [|discriminate].
    destruct (Source.last_success s1) as [ls|] eqn:Hsuccess; [|discriminate].
    destruct (colours_at_ends s1 lc ls Hlive Hchange Hsuccess)
      as (Hh0 & Hg0 & Hh1 & Hg1).
    exists lc, (lc + days_long 510).
    rewrite Hh0, Hg0, Hh1, Hg1. split; discriminate.
Qed.

Lemma derived_properties_inputs_witness :
  Source.display_name sample_source = Source.display_name sample_source_later
  /\ Source.health_box sample_source (Py.datetime_utc 2024 1 11)
     = Source.health_box sample_source_later (Py.datetime_utc 2024 1 11)
  /\ exists t1 t2 : Py.datetime,
       Source.health_box sample_source t1 <> Source.health_box sample_source t2
       /\ Source.garden_style sample_source t1
          <> Source.garden_style sample_source t2.
Proof.
  pose proof (derived_properties_inputs sample_source sample_source_later
                (Py.datetime_utc 2024 1 11) (Py.datetime_utc 2024 1 11))
    as (Hname & Hcolour & Hclock).
  split; [exact (Hname eq_refl eq_refl eq_refl)|].
  split; [|exact (Hclock eq_refl)].
  exact (proj1 (Hcolour eq_refl eq_refl eq_refl (fun _ => eq_refl))).
Defined.

(** C4 as first stated fails: the same Source read on 2024-01-01 and
    ten days later shows two different colours, in both properties. *)
Lemma health_depends_on_clock :
  Source.health_box sample_source (Py.datetime_utc 2024 1 1) = "#00ff00"
  /\ Source.health_box sample_source (Py.datetime_utc 2024 1 11) = "#05fa00"
  /\ Source.health_box sample_source (Py.datetime_utc 2024 1 1)
     <> Source.health_box sample_source (Py.datetime_utc 2024 1 11)
  /\ Source.garden_style sample_source (Py.datetime_utc 2024 1 1)
     <> Source.garden_style sample_source (Py.datetime_utc 2024 1 11).
Proof.
  split; [vm_compute; reflexivity|].
  split; [vm_compute; reflexivity|].
  split; vm_compute; congruence.
Qed.

(** ** The default order of Post *)

Section OrderBy.

Variable leb : Z * Post.t -> Z * Post.t -> bool.
Variable R : Z * Post.t -> Z * Post.t -> Prop.
Hypothesis leb_true : forall a b, leb a b = true -> R a b.
Hypothesis leb_false : forall a b, leb a b = false -> R b a.
Hypothesis R_trans : forall a b c, R a b -> R b c -> R a c.

Lemma insert_row_perm r l :
  Permutation (PostManager.insert_row leb r l) (r :: l).
Proof.
  induction l as [|x l IH]; simpl; [reflexivity|].
  destruct (leb r x); [reflexivity|].
  rewrite IH. apply perm_swap.
Qed.

Lemma order_by_perm l : Permutation (PostManager.order_by leb l) l.
Proof.
  induction l as [|x l IH]; simpl; [reflexivity|].
  rewrite insert_row_perm. by constructor.
Qed.

Lemma insert_row_sorted r l :
  StronglySorted R l -> StronglySorted R (PostManager.insert_row leb r l).
Proof.
  induction 1 as [|x l Hl IH Hx]; simpl.
  - repeat constructor.
  - destruct (leb r x) eqn:Hrx.
    + apply leb_true in Hrx. constructor.
      * by constructor.
      * constructor; [exact Hrx|].
        eapply Forall_impl; [exact Hx|]. intros y Hy. by eapply R_trans.
    + apply leb_false in Hrx. constructor; [exact IH|].
      rewrite insert_row_perm. by constructor.
Qed.

Lemma order_by_sorted l : StronglySorted R (PostManager.order_by leb l).
Proof.
  induction l as [|x l IH]; simpl; [constructor|].
  by apply insert_row_sorted.
Qed.

End OrderBy.

(** With [Meta.ordering = ["index"]] the comparison of two rows is the
    comparison of their [index]. *)
Lemma order_leb_index a b :
  PostManager.order_leb Post.Meta_ordering a b
  = (Post.index a.2 <=? Post.index b.2).
Proof.
  unfold PostManager.order_leb, Z.leb. simpl.
  destruct (Post.index a.2 ?= Post.index b.2); reflexivity.
Qed.

Lemma all_sorted (table : gmap Z Post.t) :
  StronglySorted by_index
    (PostManager.order_by (PostManager.order_leb Post.Meta_ordering)
       (map_to_list table)).
Proof.
  apply order_by_sorted; unfold by_index.
  - intros a b. rewrite order_leb_index. lia.
  - intros a b. rewrite order_leb_index. lia.
  - intros a b c. lia.
Qed.

(** In a strongly sorted list an earlier position is related to every
    later one. *)
Lemma StronglySorted_positions {A} (R : A -> A -> Prop) (l : list A) :
  StronglySorted R l ->
  forall (i j : nat) (a b : A),
    (i < j)%nat -> l !! i = Some a -> l !! j = Some b -> R a b.
Proof.
  induction 1 as [|x l Hl IH Hx]; intros i j a b Hij Ha Hb.
  - by rewrite lookup_nil in Ha.
  - destruct j as [|j]; [lia|]. simpl in Hb.
    destruct i as [|i]; simpl in Ha.
    + injection Ha as <-. rewrite Forall_lookup in Hx. by eapply Hx.
    + eapply IH; [|exact Ha|exact Hb]. lia.
Qed.

(** C7. The default enumeration of the Posts lists every stored row
    once and is ascending by [index]: a Post that comes before another
    has an [index] that is not larger. *)
Theorem default_order_ascending_index
    (table : gmap Z Post.t) (i j : nat) (p1 p2 : Post.t)
    (Hij : (i < j)%nat)
    (H1 : PostManager.all table !! i = Some p1)
    (H2 : PostManager.all table !! j = Some p2) :
  Post.index p1 <= Post.index p2
  /\ Permutation (PostManager.all table) (map snd (map_to_list table)).
Proof.
  split.
  - unfold PostManager.all in H1, H2.
    change (map snd) with (fmap (M:=list) (@snd Z Post.t)) in H1, H2.
    apply list_lookup_fmap_Some in H1 as (r1 & -> & Hr1).
    apply list_lookup_fmap_Some in H2 as (r2 & -> & Hr2).
    exact (StronglySorted_positions by_index _ (all_sorted table)
             i j r1 r2 Hij Hr1 Hr2).
  - unfold PostManager.all. apply Permutation_map, order_by_perm.
Qed.

Lemma default_order_ascending_index_witness :
  PostManager.all two_posts = [sample_post2; sample_post]
  /\ Post.index sample_post2 <= Post.index sample_post.
Proof.
  split; [vm_compute; reflexivity|].
  apply (default_order_ascending_index two_posts 0 1 sample_post2 sample_post).
  - lia.
  - vm_compute. reflexivity.
  - vm_compute. reflexivity.
Defined.

(** ** Unread counts *)

Section Counting.

Context {A : Type}.

Lemma filter_perm_length {B : Type} (f : B -> bool) (l l' : list B) :
  Permutation l l' ->
  length (List.filter f l) = length (List.filter f l').
Proof.
  induction 1 as [|x l l' _ IH|x y l|l1 l2 l3 _ IH1 _ IH2]; simpl.
  - reflexivity.
  - destruct (f x); simpl; congruence.
  - destruct (f x), (f y); reflexivity.
  - congruence.
Qed.

(** Counting the rows of a table that pass a test is taking the size
    of the filtered table. *)
Lemma filter_length_size (f : Z * A -> bool) (P : Z * A -> Prop)
    `{!forall x, Decision (P x)} (m : gmap Z A) :
  (forall x, f x = true <-> P x) ->
  length (List.filter f (map_to_list m)) = size (filter P m).
Proof.
  intros Hf. induction m as [|i x m Hi IH] using map_ind.
  - by rewrite map_to_list_empty, map_filter_empty, map_size_empty.
  - rewrite (filter_perm_length f _ _ (map_to_list_insert m i x Hi)).
    simpl. destruct (f (i, x)) eqn:Hfx.
    + rewrite map_filter_insert_True by by apply Hf.
      rewrite map_size_insert_None; [simpl; by rewrite IH|].
      apply map_lookup_filter_None. by left.
    + rewrite map_filter_insert_False.
      * by rewrite delete_id.
      * intros HP. apply Hf in HP. congruence.
Qed.

Lemma filter_filter_andb (f g : A -> bool) (l : list A) :
  List.filter g (List.filter f l) = List.filter (fun x => f x && g x) l.
Proof.
  induction l as [|x l IH]; simpl; [reflexivity|].
  destruct (f x); simpl; [destruct (g x)|]; congruence.
Qed.

Lemma filter_disjoint_length (f g : A -> bool) (l : list A) :
  (forall x, f x = true -> g x = true -> False) ->
  (length (List.filter f l) + length (List.filter g l)
   = length (List.filter (fun x => f x || g x) l))%nat.
Proof.
  intros Hfg. induction l as [|x l IH]; simpl; [reflexivity|].
  destruct (f x) eqn:Hf, (g x) eqn:Hg; simpl; try lia.
  destruct (Hfg x Hf Hg).
Qed.

End Counting.

(** The boolean filter of the Standard Library and stdpp's filter on a
    decidable predicate select the same elements. *)
Lemma list_filter_bridge {A} (f : A -> bool) (P : A -> Prop)
    `{!forall x, Decision (P x)} (l : list A) :
  (forall x, f x = true <-> P x) -> List.filter f l = filter P l.
Proof.
  intros Hf. induction l as [|x l IH]; [reflexivity|].
  simpl. rewrite filter_cons. destruct (f x) eqn:Hfx.
  - rewrite decide_True by by apply Hf. by rewrite IH.
  - rewrite decide_False; [exact IH|].
    intros HP. apply Hf in HP. congruence.
Qed.

Lemma filter_none {A} (f : A -> bool) (l : list A) :
  (forall x, f x = false) -> List.filter f l = [].
Proof.
  intros Hf. induction l as [|x l IH]; simpl; [reflexivity|].
  by rewrite Hf.
Qed.

Lemma NoDup_fst_filter {A} (f : Z * A -> bool) (l : list (Z * A)) :
  NoDup l.*1 -> NoDup (List.filter f l).*1.
Proof.
  induction l as [|x l IH]; simpl; [done|].
  rewrite NoDup_cons. intros [Hx Hl].
  destruct (f x); [|by apply IH].
  simpl. rewrite NoDup_cons. split; [|by apply IH].
  intros Hin. apply Hx.
  apply list_elem_of_fmap in Hin as (y & -> & Hy).
  apply list_elem_of_fmap. exists y. split; [reflexivity|].
  apply list_elem_of_In. apply list_elem_of_In in Hy.
  apply filter_In in Hy. tauto.
Qed.

(** The joined rows of one Source that the aggregate counts are the
    unread Posts of that Source. *)
Lemma counted_pairs (s : Z * Source.t) (ps : list (Z * Post.t)) :
  length (List.filter Category.counted (map (fun p => (s, Some p)) ps))
  = length (List.filter (fun p : Z * Post.t => negb (Post.read p.2)) ps).
Proof.
  induction ps as [|p ps IH]; simpl; [reflexivity|].
  unfold Category.counted at 1. simpl.
  destruct (negb (Post.read p.2)); simpl; congruence.
Qed.

Lemma join_count (srcs : list (Z * Source.t)) (ps : list (Z * Post.t)) :
  length (List.filter Category.counted (Category.left_join_posts srcs ps))
  = sum_list
      (map (fun s : Z * Source.t =>
              length (List.filter (Source.unread_of s.1) ps)) srcs).
Proof.
  induction srcs as [|s srcs IH]; simpl; [reflexivity|].
  rewrite List.filter_app, length_app, IH. f_equal.
  change (Source.unread_of s.1)
    with (fun r : Z * Post.t =>
            (Post.source r.2 =? s.1) && negb (Post.read r.2)).
  rewrite <- (filter_filter_andb
                (fun p : Z * Post.t => Post.source p.2 =? s.1)
                (fun p : Z * Post.t => negb (Post.read p.2))).
  destruct (List.filter (fun p : Z * Post.t => Post.source p.2 =? s.1) ps)
    as [|p rest] eqn:Hps.
  - reflexivity.
  - apply (counted_pairs s (p :: rest)).
Qed.

(** Summing the per-Source counts over Sources with distinct keys counts
    every unread Post of those Sources once. *)
Lemma sum_over_sources (srcs : list (Z * Source.t)) (ps : list (Z * Post.t)) :
  NoDup srcs.*1 ->
  sum_list
    (map (fun s : Z * Source.t =>
            length (List.filter (Source.unread_of s.1) ps)) srcs)
  = length
      (List.filter
         (fun p : Z * Post.t =>
            negb (Post.read p.2)
            && existsb (fun s : Z * Source.t => Post.source p.2 =? s.1) srcs)
         ps).
Proof.
  induction srcs as [|s srcs IH]; simpl.
  - intros _. rewrite filter_none; [reflexivity|].
    intros x. apply andb_false_r.
  - rewrite NoDup_cons. intros [Hs Hnd].
    rewrite (IH Hnd), filter_disjoint_length.
    + f_equal. apply List.filter_ext. intros p. unfold Source.unread_of.
      destruct (Post.source p.2 =? s.1), (negb (Post.read p.2)); reflexivity.
    + intros p Hf Hg. unfold Source.unread_of in Hf.
      apply andb_prop in Hf as [Hsrc _]. apply andb_prop in Hg as [_ Hex].
      apply existsb_exists in Hex as (s' & Hin & Hs').
      apply Z.eqb_eq in Hsrc. apply Z.eqb_eq in Hs'.
      apply Hs. apply list_elem_of_fmap. exists s'.
      split; [congruence|]. by apply list_elem_of_In.
Qed.

(** A key is among the selected Sources exactly when the Source stored
    under it belongs to the Category. *)
Lemma selected_lookup (sources : gmap Z Source.t) (c k : Z) :
  existsb (fun s : Z * Source.t => k =? s.1)
    (List.filter (Category.in_category c) (map_to_list sources))
  = match sources !! k with
    | Some s => bool_decide (Source.category s = Some c)
    | None => false
    end.
Proof.
  apply eq_true_iff_eq. rewrite existsb_exists. split.
  - intros ([k' s] & Hin & Hk). apply Z.eqb_eq in Hk. simpl in Hk. subst k'.
    apply filter_In in Hin as [Hin Hcat].
    apply list_elem_of_In, elem_of_map_to_list in Hin. rewrite Hin.
    unfold Category.in_category in Hcat. simpl in Hcat.
    destruct (Source.category s) as [c'|]; [|discriminate].
    apply Z.eqb_eq in Hcat. subst c'. by apply bool_decide_eq_true.
  - destruct (sources !! k) as [s|] eqn:Hk; [|discriminate].
    intros Hcat. apply bool_decide_eq_true in Hcat.
    exists (k, s). split; [|by apply Z.eqb_eq].
    apply filter_In. split.
    + by apply list_elem_of_In, elem_of_map_to_list.
    + unfold Category.in_category. simpl. rewrite Hcat. by apply Z.eqb_eq.
Qed.

Lemma source_unread_length (pk : Z) (posts : gmap Z Post.t) :
  length (List.filter (Source.unread_of pk) (map_to_list posts))
  = source_unread pk posts.
Proof.
  apply filter_length_size. intros r. unfold Source.unread_of.
  rewrite andb_true_iff, Z.eqb_eq, negb_true_iff. reflexivity.
Qed.

(** C8. For a saved Source, [unread_posts_count] is the number of that
    Source's Posts whose [read] is false; for a saved Category it is the
    number of Posts with [read] false over all Sources of the Category,
    which is the sum of the per-Source counts. *)
Theorem unread_counts_aggregate
    (sources : gmap Z Source.t) (posts : gmap Z Post.t)
    (s : Source.t) (c : Category.t) (spk cpk : Z)
    (Hs : Source.id s = Some spk) (Hc : Category.id c = Some cpk) :
  Source.unread_posts_count s posts = Ok (Z.of_nat (source_unread spk posts))
  /\ Category.unread_posts_count c sources posts
     = Ok (Z.of_nat (category_unread cpk sources posts))
  /\ category_unread cpk sources posts
     = sum_list (map (fun r : Z * Source.t => source_unread r.1 posts)
                   (sources_of cpk sources)).
Proof.
  assert (Hsel : List.filter (Category.in_category cpk) (map_to_list sources)
                 = sources_of cpk sources).
  { apply list_filter_bridge. intros r. unfold Category.in_category.
    destruct (Source.category r.2) as [c'|]; [|by split].
    rewrite Z.eqb_eq. split; congruence. }
  assert (Hsum :
    sum_list (map (fun r : Z * Source.t =>
                     length (List.filter (Source.unread_of r.1)
                               (map_to_list posts)))
                (sources_of cpk sources))
    = category_unread cpk sources posts).
  { rewrite <- Hsel, sum_over_sources.
    - unfold category_unread. rewrite <- (filter_length_size
        (unread_in_category sources cpk)) by done.
      f_equal. apply List.filter_ext. intros p.
      unfold unread_in_category. by rewrite selected_lookup.
    - apply NoDup_fst_filter, NoDup_fst_map_to_list. }
  split; [|split].
  - unfold Source.unread_posts_count. rewrite Hs.
    by rewrite source_unread_length.
  - unfold Category.unread_posts_count. rewrite Hc.
    by rewrite join_count, Hsel, Hsum.
  - rewrite <- Hsum. f_equal. apply map_ext. intros r.
    apply source_unread_length.
Qed.

Lemma unread_counts_aggregate_witness :
  Source.unread_posts_count sample_source two_posts
  = Ok (Z.of_nat (source_unread 7 two_posts))
  /\ Category.unread_posts_count
       {| Category.id := Some 3; Category.name := "News" |}
       (sources sample_db) two_posts
     = Ok (Z.of_nat (category_unread 3 (sources sample_db) two_posts)).
Proof.
  pose proof (unread_counts_aggregate (sources sample_db) two_posts
                sample_source
                {| Category.id := Some 3; Category.name := "News" |}
                7 3 eq_refl eq_refl) as H.
  split; [exact (proj1 H)|exact (proj1 (proj2 H))].
Defined.

(** ** Further properties: the colours of a Source *)


Lemma staleness_at_least (now last_change : Py.datetime) (n : Z) :
  days_long (2 * n) <= now - last_change <-> n <= staleness now last_change.
Proof.
  unfold staleness, days_long.
  assert (Hpos : 0 < 2 * Py.us_per_day) by reflexivity.
  split; intros H.
  - apply Z.div_le_lower_bound; lia.
  - pose proof (Z.mul_div_le (now - last_change) _ Hpos). nia.
Qed.

(** X1. For a live Source with both timestamps whose [last_change] is
    not later than the clock, [garden_style] paints the background
    [#ffCCCC] with CC = max(255 - d, 0) in two lowercase hexadecimal
    digits, d being the days since [last_change] halved and rounded
    down, and switches the text to white exactly from 256 days on. *)
Theorem garden_style_formula
    (self : Source.t) (now last_change last_success : Py.datetime)
    (Hlive : Source.live self = true)
    (Hchange : Source.last_change self = Some last_change)
    (Hsuccess : Source.last_success self = Some last_success)
    (Hpast : last_change <= now) :
  let c := green_level (staleness now last_change) in
  let css := "background-color:#ff" +:+ two_hex c +:+ two_hex c in
  0 <= c <= 255
  /\ Source.garden_style self now
     = if decide (days_long 256 <= now - last_change)
       then css +:+ ";color:white" else css.
Proof.
  intros c css. subst css c.
  pose proof (staleness_nonneg now last_change Hpast) as Hd.
  pose proof (staleness_at_least now last_change 128) as H128.
  unfold Source.garden_style. rewrite Hlive, Hchange, Hsuccess. simpl negb.
  cbv iota. rewrite (int_half_days now last_change Hpast).
  set (d := staleness now last_change) in *.
  unfold green_level.
  assert (Hcol : (if 255 - d <? 0 then 0 else 255 - d) = Z.max (255 - d) 0).
  { destruct (Z.ltb_spec (255 - d) 0); lia. }
  cbv zeta. rewrite Hcol.
  rewrite (format_02x_byte (Z.max (255 - d) 0)) by lia.
  split; [lia|].
  change (2 * 128) with 256 in H128.
  destruct (Z.ltb_spec (Z.max (255 - d) 0) 128);
    destruct (decide (days_long 256 <= now - last_change)) as [Hl|Hl];
    try reflexivity; exfalso.
  - apply Hl, H128. lia.
  - apply H128 in Hl. lia.
Qed.

Lemma garden_style_formula_witness :
  Source.garden_style sample_source (Py.datetime_utc 2025 1 1)
  = "background-color:#ff4848;color:white".
Proof.
  pose proof (garden_style_formula sample_source (Py.datetime_utc 2025 1 1)
                (Py.datetime_utc 2024 1 1) (Py.datetime_utc 2024 1 1)
                eq_refl eq_refl eq_refl) as H.
  assert (Hle : Py.datetime_utc 2024 1 1 <= Py.datetime_utc 2025 1 1)
    by (vm_compute; congruence).
  destruct (H Hle) as [_ Heq]. rewrite Heq. vm_compute. reflexivity.
Defined.



(** X3. Whenever the clock is not consulted (the Source is not live, or
    [last_change] or [last_success] is unset), both colours are fixed:
    grey when not live, whatever the timestamps, and otherwise the
    warning red; no clock reading and no timestamp changes them. *)
Theorem colours_without_clock
    (self : Source.t) (now : Py.datetime)
    (Hclock : reads_clock self = false) :
  Source.health_box self now
  = (if Source.live self then "#F00;" else "#ccc;")
  /\ Source.garden_style self now
     = (if Source.live self then "background-color:#D00;color:white"
        else "background-color:#ccc;").
Proof.
  unfold Source.health_box, Source.garden_style, reads_clock in *.
  destruct (Source.live self); simpl in *; [|split; reflexivity].
  destruct (Source.last_change self); [|split; reflexivity].
  destruct (Source.last_success self); [discriminate|split; reflexivity].
Qed.

Lemma colours_without_clock_witness :
  Source.health_box (Source.create "https://example.org/feed") 0 = "#F00;"
  /\ Source.garden_style (Source.create "https://example.org/feed") 0
     = "background-color:#D00;color:white".
Proof.
  exact (colours_without_clock (Source.create "https://example.org/feed") 0
           eq_refl).
Defined.

(** ** Further properties: the flag-writing methods *)

Lemma mark_read_effect (self : Post.t) (table : gmap Z Post.t) :
  Post.mark_read self table
  = Post.mk_effect (Post.set_read true self)
      (Post.save (Post.set_read true self) ["read"] table).1
      (Post.save (Post.set_read true self) ["read"] table).2.
Proof.
  unfold Post.mark_read.
  destruct (Post.save (Post.set_read true self) ["read"] table); reflexivity.
Qed.

Lemma unmark_read_effect (self : Post.t) (table : gmap Z Post.t) :
  Post.unmark_read self table
  = Post.mk_effect (Post.set_read false self)
      (Post.save (Post.set_read false self) ["read"] table).1
      (Post.save (Post.set_read false self) ["read"] table).2.
Proof.
  unfold Post.unmark_read.
  destruct (Post.save (Post.set_read false self) ["read"] table); reflexivity.
Qed.

Lemma toggle_starred_effect (self : Post.t) (table : gmap Z Post.t) :
  Post.toggle_starred self table
  = Post.mk_effect (Post.set_starred (negb (Post.starred self)) self)
      (Post.save (Post.set_starred (negb (Post.starred self)) self)
         ["starred"] table).1
      (Post.save (Post.set_starred (negb (Post.starred self)) self)
         ["starred"] table).2.
Proof.
  unfold Post.toggle_starred.
  destruct (Post.save (Post.set_starred (negb (Post.starred self)) self)
              ["starred"] table); reflexivity.
Qed.

(** What one write of a flag does to the table and how it ends. *)
Lemma save_read_cases (p : Post.t) (table : gmap Z Post.t) :
  (Post.save p ["read"] table).2 = expected_outcome p table
  /\ ((Post.save p ["read"] table).2 <> Ok tt ->
      (Post.save p ["read"] table).1 = table)
  /\ dom (Post.save p ["read"] table).1 = dom table.
Proof.
  rewrite save_read_unfold. unfold expected_outcome.
  destruct (Post.id p) as [pk|]; [|by repeat split].
  destruct (table !! pk) as [row|] eqn:Hrow; [|by repeat split].
  simpl. split; [reflexivity|]. split; [congruence|].
  apply dom_insert_lookup_L. by rewrite Hrow.
Qed.

Lemma save_starred_cases (p : Post.t) (table : gmap Z Post.t) :
  (Post.save p ["starred"] table).2 = expected_outcome p table
  /\ ((Post.save p ["starred"] table).2 <> Ok tt ->
      (Post.save p ["starred"] table).1 = table)
  /\ dom (Post.save p ["starred"] table).1 = dom table.
Proof.
  rewrite save_starred_unfold. unfold expected_outcome.
  destruct (Post.id p) as [pk|]; [|by repeat split].
  destruct (table !! pk) as [row|] eqn:Hrow; [|by repeat split].
  simpl. split; [reflexivity|]. split; [congruence|].
  apply dom_insert_lookup_L. by rewrite Hrow.
Qed.

(** X4. How [mark_read], [unmark_read] and [toggle_starred] end: with a
    [ValueError] on an instance without primary key, with a
    [DatabaseError] when no row is stored under the key, and normally
    otherwise.  A call that raises leaves the table as it was, and no
    call ever adds or removes a row. *)
Theorem flag_method_outcome
    (method : Post.t -> gmap Z Post.t -> Post.effect)
    (self : Post.t) (table : gmap Z Post.t)
    (Hmethod : method ∈ flag_methods) :
  Post.outcome (method self table) = expected_outcome self table
  /\ (Post.outcome (method self table) <> Ok tt ->
      Post.table_after (method self table) = table)
  /\ dom (Post.table_after (method self table)) = dom table.
Proof.
  unfold flag_methods in Hmethod.
  apply list_elem_of_In in Hmethod. simpl in Hmethod.
  destruct Hmethod as [<-|[<-|[<-|[]]]].
  - rewrite mark_read_effect. simpl.
    apply (save_read_cases (Post.set_read true self) table).
  - rewrite unmark_read_effect. simpl.
    apply (save_read_cases (Post.set_read false self) table).
  - rewrite toggle_starred_effect. simpl.
    apply (save_starred_cases
             (Post.set_starred (negb (Post.starred self)) self) table).
Qed.

Lemma flag_method_outcome_witness :
  Post.outcome (Post.mark_read (Post.create 7 [] "b" 0 3) two_posts)
  = Raise ValueError
  /\ Post.outcome (Post.toggle_starred sample_post2 sample_posts)
     = Raise DatabaseError.
Proof.
  split.
  - apply (flag_method_outcome Post.mark_read (Post.create 7 [] "b" 0 3)
             two_posts).
    unfold flag_methods. apply list_elem_of_In. simpl. tauto.
  - apply (flag_method_outcome Post.toggle_starred sample_post2 sample_posts).
    unfold flag_methods. apply list_elem_of_In. simpl. tauto.
Defined.

(** X5. The last write of [read] wins: calling [mark_read] or
    [unmark_read] on what an earlier [mark_read] or [unmark_read] left
    behind gives the same instance, the same table and the same outcome
    as calling it at once.  In particular each of the two is idempotent. *)
Theorem read_last_write_wins
    (first second : bool) (self : Post.t) (table : gmap Z Post.t) :
  let write := fun r : bool => if r then Post.mark_read else Post.unmark_read in
  let e := write first self table in
  write second (Post.self_after e) (Post.table_after e)
  = write second self table.
Proof.
  intros write e.
  assert (Hw : forall r p t,
            write r p t
            = Post.mk_effect (Post.set_read r p)
                (Post.save (Post.set_read r p) ["read"] t).1
                (Post.save (Post.set_read r p) ["read"] t).2).
  { intros [] p t; [apply mark_read_effect|apply unmark_read_effect]. }
  subst e. rewrite !Hw. cbn [Post.self_after Post.table_after].
  rewrite !save_read_unfold. cbn [Post.id Post.read Post.set_read].
  destruct (Post.id self) as [pk|]; [|reflexivity].
  destruct (table !! pk) as [row|] eqn:Hrow; cbn [fst snd].
  - rewrite lookup_insert_eq. cbn [fst snd].
    rewrite insert_insert_eq. reflexivity.
  - rewrite Hrow. reflexivity.
Qed.

(** ** Further properties: flags and unread counts *)

(** Overwriting a stored row moves the number of rows that pass a test
    by the old row's and the new row's verdicts. *)
Lemma size_filter_overwrite {A} (P : Z * A -> Prop)
    `{!forall x, Decision (P x)} (m : gmap Z A) (k : Z) (r r' : A) :
  m !! k = Some r ->
  (size (filter P (<[k := r']> m)) + (if decide (P (k, r)) then 1 else 0)
   = size (filter P m) + (if decide (P (k, r')) then 1 else 0))%nat.
Proof.
  intros Hk.
  assert (Hone : forall x,
            size (filter P (<[k := x]> (delete k m)))
            = (size (filter P (delete k m))
               + (if decide (P (k, x)) then 1 else 0))%nat).
  { intros x. destruct (decide (P (k, x))) as [HP|HP].
    - rewrite map_filter_insert_True by done.
      rewrite map_size_insert_None; [lia|].
      apply map_lookup_filter_None. left. apply lookup_delete_eq.
    - rewrite map_filter_insert_False by done.
      rewrite delete_id by apply lookup_delete_eq. lia. }
  assert (Hm : size (filter P m)
               = (size (filter P (delete k m))
                  + (if decide (P (k, r)) then 1 else 0))%nat).
  { rewrite <- (Hone r). by rewrite insert_delete_id. }
  rewrite <- (insert_delete_eq m k r'), (Hone r'), Hm. lia.
Qed.

(** The count of a saved Category, as the size of a part of the table. *)
Lemma category_count_size (c : Category.t) (cpk : Z)
    (sources : gmap Z Source.t) (posts : gmap Z Post.t) :
  Category.id c = Some cpk ->
  Category.unread_posts_count c sources posts
  = Ok (Z.of_nat (category_unread cpk sources posts)).
Proof.
  intros Hc. unfold Category.unread_posts_count. rewrite Hc.
  rewrite join_count, sum_over_sources
    by apply NoDup_fst_filter, NoDup_fst_map_to_list.
  unfold category_unread.
  rewrite <- (filter_length_size (unread_in_category sources cpk)) by done.
  do 3 f_equal. apply List.filter_ext. intros p.
  unfold unread_in_category. by rewrite selected_lookup.
Qed.

Lemma source_count_size (s : Source.t) (spk : Z) (posts : gmap Z Post.t) :
  Source.id s = Some spk ->
  Source.unread_posts_count s posts = Ok (Z.of_nat (source_unread spk posts)).
Proof.
  intros Hs. unfold Source.unread_posts_count. rewrite Hs.
  by rewrite source_unread_length.
Qed.

(** Both counts after the stored row [row] under [pk] is replaced by
    [row']. *)
Lemma counts_after_overwrite
    (sources : gmap Z Source.t) (table : gmap Z Post.t)
    (pk : Z) (row row' : Post.t) (spk cpk : Z) :
  table !! pk = Some row ->
  Z.of_nat (source_unread spk (<[pk := row']> table))
  = Z.of_nat (source_unread spk table)
    - one_if (Source.unread_of spk (pk, row))
    + one_if (Source.unread_of spk (pk, row'))
  /\ Z.of_nat (category_unread cpk sources (<[pk := row']> table))
     = Z.of_nat (category_unread cpk sources table)
       - one_if (unread_in_category sources cpk (pk, row))
       + one_if (unread_in_category sources cpk (pk, row')).
Proof.
  intros Hrow. split.
  - unfold source_unread.
    pose proof (size_filter_overwrite
                  (fun r : Z * Post.t =>
                     Post.source r.2 = spk /\ Post.read r.2 = false)
                  table pk row row' Hrow) as H.
    unfold Source.unread_of, one_if. simpl in *.
    repeat match goal with
           | H : context [decide ?P] |- _ => destruct (decide P)
           end;
      destruct (Z.eqb_spec (Post.source row) spk),
               (Z.eqb_spec (Post.source row') spk),
               (Post.read row), (Post.read row'); simpl; try lia;
      intuition congruence.
  - unfold category_unread.
    pose proof (size_filter_overwrite
                  (fun r : Z * Post.t =>
                     unread_in_category sources cpk r = true)
                  table pk row row' Hrow) as H.
    unfold one_if.
    repeat match goal with
           | H : context [decide ?P] |- _ => destruct (decide P)
           end;
      destruct (unread_in_category sources cpk (pk, row)),
               (unread_in_category sources cpk (pk, row'));
      try lia; congruence.
Qed.

(** X6. [mark_read] on a stored Post lowers the unread count of a Source
    by one exactly when the stored row was unread and belongs to that
    Source, and the unread count of a Category by one exactly when the
    stored row was unread and its Source belongs to that Category;
    otherwise the counts stay. *)
Theorem mark_read_lowers_counts
    (self : Post.t) (table : gmap Z Post.t) (sources : gmap Z Source.t)
    (pk : Z) (row : Post.t) (s : Source.t) (c : Category.t) (spk cpk : Z)
    (Hid : Post.id self = Some pk) (Hrow : table !! pk = Some row)
    (Hs : Source.id s = Some spk) (Hc : Category.id c = Some cpk) :
  let table' := Post.table_after (Post.mark_read self table) in
  exists n n' m m' : Z,
    Source.unread_posts_count s table = Ok n
    /\ Source.unread_posts_count s table' = Ok n'
    /\ n' = n - one_if (Source.unread_of spk (pk, row))
    /\ Category.unread_posts_count c sources table = Ok m
    /\ Category.unread_posts_count c sources table' = Ok m'
    /\ m' = m - one_if (unread_in_category sources cpk (pk, row)).
Proof.
  intros table'. subst table'.
  rewrite mark_read_table, save_read_unfold. simpl. rewrite Hid, Hrow. simpl.
  rewrite !(source_count_size s spk) by done.
  rewrite !(category_count_size c cpk) by done.
  destruct (counts_after_overwrite sources table pk row
              (Post.set_read true row) spk cpk Hrow) as [H1 H2].
  do 4 eexists. repeat (split; [reflexivity|]).
  split; [|split; [reflexivity|split; [reflexivity|]]].
  - rewrite H1. set (x := one_if (Source.unread_of spk (pk, row))).
    unfold Source.unread_of, one_if. simpl. rewrite andb_false_r. lia.
  - rewrite H2. set (x := one_if (unread_in_category sources cpk (pk, row))).
    unfold unread_in_category, one_if. simpl. lia.
Qed.

Lemma mark_read_lowers_counts_witness :
  exists n n' m m' : Z,
    Source.unread_posts_count sample_source two_posts = Ok n
    /\ Source.unread_posts_count sample_source
         (Post.table_after (Post.mark_read sample_post two_posts)) = Ok n'
    /\ n' = n - one_if (Source.unread_of 7 (1, sample_post))
    /\ Category.unread_posts_count
         {| Category.id := Some 3; Category.name := "News" |}
         (sources sample_db) two_posts = Ok m
    /\ Category.unread_posts_count
         {| Category.id := Some 3; Category.name := "News" |}
         (sources sample_db)
         (Post.table_after (Post.mark_read sample_post two_posts)) = Ok m'
    /\ m' = m - one_if (unread_in_category (sources sample_db) 3
                          (1, sample_post)).
Proof.
  exact (mark_read_lowers_counts sample_post two_posts (sources sample_db)
           1 sample_post sample_source
           {| Category.id := Some 3; Category.name := "News" |} 7 3
           eq_refl eq_refl eq_refl eq_refl).
Defined.

(** X7. [unmark_read] on a stored Post raises the unread count of a
    Source by one exactly when the stored row was read and belongs to
    that Source, and the unread count of a Category by one exactly when
    the stored row was read and its Source belongs to that Category;
    otherwise the counts stay. *)
Theorem unmark_read_raises_counts
    (self : Post.t) (table : gmap Z Post.t) (sources : gmap Z Source.t)
    (pk : Z) (row : Post.t) (s : Source.t) (c : Category.t) (spk cpk : Z)
    (Hid : Post.id self = Some pk) (Hrow : table !! pk = Some row)
    (Hs : Source.id s = Some spk) (Hc : Category.id c = Some cpk) :
  let table' := Post.table_after (Post.unmark_read self table) in
  exists n n' m m' : Z,
    Source.unread_posts_count s table = Ok n
    /\ Source.unread_posts_count s table' = Ok n'
    /\ n' = n + one_if ((Post.source row =? spk) && Post.read row)
    /\ Category.unread_posts_count c sources table = Ok m
    /\ Category.unread_posts_count c sources table' = Ok m'
    /\ m' = m + one_if (Post.read row && post_in_category sources cpk row).
Proof.
  intros table'. subst table'.
  rewrite unmark_read_table, save_read_unfold. simpl. rewrite Hid, Hrow. simpl.
  rewrite !(source_count_size s spk) by done.
  rewrite !(category_count_size c cpk) by done.
  destruct (counts_after_overwrite sources table pk row
              (Post.set_read false row) spk cpk Hrow) as [H1 H2].
  do 4 eexists. repeat (split; [reflexivity|]).
  split; [|split; [reflexivity|split; [reflexivity|]]].
  - rewrite H1. unfold Source.unread_of, one_if. simpl.
    destruct (Post.source row =? spk), (Post.read row); simpl; lia.
  - rewrite H2. unfold unread_in_category, post_in_category, one_if. simpl.
    destruct (Post.read row); simpl; [lia|].
    destruct (sources !! Post.source row) as [src|]; [|lia].
    destruct (bool_decide (Source.category src = Some cpk)); lia.
Qed.

Lemma unmark_read_raises_counts_witness :
  exists n n' m m' : Z,
    Source.unread_posts_count sample_source two_posts = Ok n
    /\ Source.unread_posts_count sample_source
         (Post.table_after (Post.unmark_read sample_post2 two_posts)) = Ok n'
    /\ n' = n + one_if ((Post.source sample_post2 =? 7)
                        && Post.read sample_post2)
    /\ Category.unread_posts_count
         {| Category.id := Some 3; Category.name := "News" |}
         (sources sample_db) two_posts = Ok m
    /\ Category.unread_posts_count
         {| Category.id := Some 3; Category.name := "News" |}
         (sources sample_db)
         (Post.table_after (Post.unmark_read sample_post2 two_posts)) = Ok m'
    /\ m' = m + one_if (Post.read sample_post2
                        && post_in_category (sources sample_db) 3
                             sample_post2).
Proof.
  exact (unmark_read_raises_counts sample_post2 two_posts (sources sample_db)
           2 sample_post2 sample_source
           {| Category.id := Some 3; Category.name := "News" |} 7 3
           eq_refl eq_refl eq_refl eq_refl).
Defined.

(** X8. [toggle_starred] never changes an unread count: for every saved
    Source and every saved Category the count after the call is the
    count before it, whether the call succeeds or raises. *)
Theorem toggle_starred_keeps_counts
    (self : Post.t) (table : gmap Z Post.t) (sources : gmap Z Source.t)
    (s : Source.t) (c : Category.t) (spk cpk : Z)
    (Hs : Source.id s = Some spk) (Hc : Category.id c = Some cpk) :
  let table' := Post.table_after (Post.toggle_starred self table) in
  Source.unread_posts_count s table' = Source.unread_posts_count s table
  /\ Category.unread_posts_count c sources table'
     = Category.unread_posts_count c sources table.
Proof.
  intros table'. subst table'.
  rewrite toggle_starred_table, save_starred_unfold. simpl.
  destruct (Post.id self) as [pk|]; [|by split].
  destruct (table !! pk) as [row|] eqn:Hrow; [|by split].
  simpl.
  rewrite !(source_count_size s spk) by done.
  rewrite !(category_count_size c cpk) by done.
  destruct (counts_after_overwrite sources table pk row
              (Post.set_starred (negb (Post.starred self)) row)
              spk cpk Hrow) as [H1 H2].
  split; f_equal.
  - rewrite H1. unfold Source.unread_of. simpl. lia.
  - rewrite H2. unfold unread_in_category. simpl. lia.
Qed.

Lemma toggle_starred_keeps_counts_witness :
  Source.unread_posts_count sample_source
    (Post.table_after (Post.toggle_starred sample_post two_posts))
  = Source.unread_posts_count sample_source two_posts.
Proof.
  apply (toggle_starred_keeps_counts sample_post two_posts (sources sample_db)
           sample_source
           {| Category.id := Some 3; Category.name := "News" |} 7 3
           eq_refl eq_refl).
Defined.

(** ** Further properties: what a session leaves of the Posts *)

Lemma same_but_flags_refl (p : Post.t) : same_but_flags p p.
Proof. unfold same_but_flags. tauto. Qed.

Lemma same_but_flags_trans (p q r : Post.t) :
  same_but_flags p q -> same_but_flags q r -> same_but_flags p r.
Proof. unfold same_but_flags. intuition congruence. Qed.

(** The table of Posts one call leaves behind: the old one, or the old
    one with the row of one stored key replaced by a row that differs in
    a flag at most. *)
Lemma exec_posts_step (op : Op) (db : DB) :
  posts (exec op db).1 = posts db
  \/ exists pk row row',
       posts db !! pk = Some row
       /\ same_but_flags row row'
       /\ posts (exec op db).1 = <[pk := row']> (posts db).
Proof.
  assert (Hread : forall p,
            (Post.save p ["read"] (posts db)).1 = posts db
            \/ exists pk row row',
                 posts db !! pk = Some row /\ same_but_flags row row'
                 /\ (Post.save p ["read"] (posts db)).1
                    = <[pk := row']> (posts db)).
  { intros p. rewrite save_read_unfold.
    destruct (Post.id p) as [pk|]; [|by left].
    destruct (posts db !! pk) as [row|] eqn:Hrow; [|by left].
    right. exists pk, row, (Post.set_read (Post.read p) row).
    split; [done|]. split; [|done]. unfold same_but_flags. simpl. tauto. }
  assert (Hstar : forall p,
            (Post.save p ["starred"] (posts db)).1 = posts db
            \/ exists pk row row',
                 posts db !! pk = Some row /\ same_but_flags row row'
                 /\ (Post.save p ["starred"] (posts db)).1
                    = <[pk := row']> (posts db)).
  { intros p. rewrite save_starred_unfold.
    destruct (Post.id p) as [pk|]; [|by left].
    destruct (posts db !! pk) as [row|] eqn:Hrow; [|by left].
    right. exists pk, row, (Post.set_starred (Post.starred p) row).
    split; [done|]. split; [|done]. unfold same_but_flags. simpl. tauto. }
  destruct op; simpl; try (by left).
  - rewrite mark_read_table. apply Hread.
  - rewrite unmark_read_table. apply Hread.
  - rewrite toggle_starred_table. apply Hstar.
Qed.

Lemma exec_categories (op : Op) (db : DB) :
  categories (exec op db).1 = categories db.
Proof. destruct op; reflexivity. Qed.

(** X9. Whatever sequence of the exposed calls runs, the table of Posts
    keeps exactly its keys, and every stored Post keeps every field
    except possibly [read] and [starred]: no call creates or deletes a
    Post or rewrites its source, title, body, link, dates, guid, author,
    index or image; the Categories are not written either. *)
Theorem run_keeps_posts
    (ops : list Op) (db : DB) (k : Z) (row : Post.t)
    (Hrow : posts db !! k = Some row) :
  (exists row', posts (run ops db) !! k = Some row'
                /\ same_but_flags row row')
  /\ dom (posts (run ops db)) = dom (posts db)
  /\ categories (run ops db) = categories db.
Proof.
  revert db row Hrow. induction ops as [|op ops IH]; intros db row Hrow; simpl.
  - split; [|done]. exists row. split; [done|apply same_but_flags_refl].
  - assert (Hstep : exists r1, posts (exec op db).1 !! k = Some r1
                               /\ same_but_flags row r1
                               /\ dom (posts (exec op db).1) = dom (posts db)).
    { destruct (exec_posts_step op db) as [->|(pk & r & r' & Hpk & Hsame & ->)].
      - exists row. split; [done|]. split; [apply same_but_flags_refl|done].
      - rewrite dom_insert_lookup_L by by rewrite Hpk.
        destruct (decide (pk = k)) as [->|Hne].
        + exists r'. rewrite lookup_insert_eq. split; [done|].
          split; [congruence|done].
        + exists row. rewrite lookup_insert_ne by done.
          split; [done|]. split; [apply same_but_flags_refl|done]. }
    destruct Hstep as (r1 & Hr1 & Hsame1 & Hdom1).
    destruct (IH (exec op db).1 r1 Hr1) as ((r2 & Hr2 & Hsame2) & Hdom2 & Hcat2).
    split; [|split].
    + exists r2. split; [done|]. by eapply same_but_flags_trans.
    + by rewrite Hdom2.
    + by rewrite Hcat2, exec_categories.
Qed.

Lemma run_keeps_posts_witness :
  exists row',
    posts (run [post_mark_read sample_post; post_toggle_starred sample_post]
             sample_db) !! 1 = Some row'
    /\ same_but_flags sample_post row'.
Proof.
  apply (run_keeps_posts
           [post_mark_read sample_post; post_toggle_starred sample_post]
           sample_db 1 sample_post).
  reflexivity.
Defined.

(** Replacing a stored row by one with the same [index] leaves the
    indices held in the table the same, up to order. *)
Lemma overwrite_index_perm (table : gmap Z Post.t) (pk : Z)
    (row row' : Post.t) :
  table !! pk = Some row -> Post.index row' = Post.index row ->
  Permutation
    (map (fun r : Z * Post.t => Post.index r.2)
       (map_to_list (<[pk := row']> table)))
    (map (fun r : Z * Post.t => Post.index r.2) (map_to_list table)).
Proof.
  intros Hrow Hindex.
  rewrite <- (insert_delete_eq table pk row').
  rewrite (Permutation_map _ (map_to_list_insert (delete pk table) pk row'
                                (lookup_delete_eq table pk))).
  rewrite <- (Permutation_map _ (map_to_list_delete table pk row Hrow)).
  simpl. by rewrite Hindex.
Qed.

Lemma run_index_perm (ops : list Op) (db : DB) :
  Permutation
    (map (fun r : Z * Post.t => Post.index r.2)
       (map_to_list (posts (run ops db))))
    (map (fun r : Z * Post.t => Post.index r.2) (map_to_list (posts db))).
Proof.
  revert db. induction ops as [|op ops IH]; intros db; simpl; [done|].
  rewrite IH.
  destruct (exec_posts_step op db) as [->|(pk & r & r' & Hpk & Hsame & ->)];
    [done|].
  apply (overwrite_index_perm _ pk r r' Hpk).
  unfold same_but_flags in Hsame. symmetry. tauto.
Qed.

Lemma all_index_map (table : gmap Z Post.t) :
  map Post.index (PostManager.all table)
  = map (fun r : Z * Post.t => Post.index r.2)
      (PostManager.order_by (PostManager.order_leb Post.Meta_ordering)
         (map_to_list table)).
Proof. unfold PostManager.all. by rewrite map_map. Qed.

Lemma all_index_sorted (table : gmap Z Post.t) :
  StronglySorted Z.le (map Post.index (PostManager.all table)).
Proof.
  rewrite all_index_map.
  apply (StronglySorted_fmap (fun r : Z * Post.t => Post.index r.2)
           by_index Z.le); [|apply all_sorted].
  intros x y Hxy. exact Hxy.
Qed.

Lemma without_flags_same (p q : Post.t) :
  same_but_flags p q -> without_flags p = without_flags q.
Proof.
  unfold same_but_flags, without_flags. destruct p, q. simpl.
  intros (-> & -> & -> & -> & -> & -> & -> & -> & -> & -> & ->). reflexivity.
Qed.

(** Replacing a stored row by one that differs in a flag at most leaves
    the rows of the table the same, flags apart and up to order. *)
Lemma overwrite_rows_perm (table : gmap Z Post.t) (pk : Z)
    (row row' : Post.t) :
  table !! pk = Some row -> same_but_flags row row' ->
  Permutation
    (map (fun r : Z * Post.t => without_flags r.2)
       (map_to_list (<[pk := row']> table)))
    (map (fun r : Z * Post.t => without_flags r.2) (map_to_list table)).
Proof.
  intros Hrow Hsame.
  rewrite <- (insert_delete_eq table pk row').
  rewrite (Permutation_map _ (map_to_list_insert (delete pk table) pk row'
                                (lookup_delete_eq table pk))).
  rewrite <- (Permutation_map _ (map_to_list_delete table pk row Hrow)).
  simpl. by rewrite (without_flags_same row row' Hsame).
Qed.

Lemma run_rows_perm (ops : list Op) (db : DB) :
  Permutation
    (map (fun r : Z * Post.t => without_flags r.2)
       (map_to_list (posts (run ops db))))
    (map (fun r : Z * Post.t => without_flags r.2) (map_to_list (posts db))).
Proof.
  revert db. induction ops as [|op ops IH]; intros db; simpl; [done|].
  rewrite IH.
  destruct (exec_posts_step op db) as [->|(pk & r & r' & Hpk & Hsame & ->)];
    [done|].
  by apply (overwrite_rows_perm _ pk r r').
Qed.

Lemma all_rows_map (table : gmap Z Post.t) :
  map without_flags (PostManager.all table)
  = map (fun r : Z * Post.t => without_flags r.2)
      (PostManager.order_by (PostManager.order_leb Post.Meta_ordering)
         (map_to_list table)).
Proof. unfold PostManager.all. by rewrite map_map. Qed.

Lemma all_rows_sorted (table : gmap Z Post.t) :
  StronglySorted (fun p q : Post.t => Post.index p <= Post.index q)
    (map without_flags (PostManager.all table)).
Proof.
  rewrite all_rows_map.
  apply (StronglySorted_fmap (fun r : Z * Post.t => without_flags r.2)
           by_index (fun p q : Post.t => Post.index p <= Post.index q));
    [|apply all_sorted].
  intros x y Hxy. exact Hxy.
Qed.

Lemma all_rows_perm (table : gmap Z Post.t) :
  Permutation (map without_flags (PostManager.all table))
    (map (fun r : Z * Post.t => without_flags r.2) (map_to_list table)).
Proof. rewrite all_rows_map. apply Permutation_map, order_by_perm. Qed.

(** In a list without two equal images, equal images mean equal
    elements. *)
Lemma NoDup_map_same {A B} (f : A -> B) (l : list A) (x y : A) :
  NoDup (map f l) -> x ∈ l -> y ∈ l -> f x = f y -> x = y.
Proof.
  induction l as [|a l IH]; simpl; intros Hnd Hx Hy Hf.
  - by apply elem_of_nil in Hx.
  - apply NoDup_cons in Hnd as [Ha Hnd].
    apply elem_of_cons in Hx as [->|Hx]; apply elem_of_cons in Hy as [->|Hy].
    + reflexivity.
    + exfalso. apply Ha. rewrite Hf. apply list_elem_of_In, in_map.
      by apply list_elem_of_In.
    + exfalso. apply Ha. rewrite <- Hf. apply list_elem_of_In, in_map.
      by apply list_elem_of_In.
    + by apply IH.
Qed.

(** X10. What marking and starring leave of the listing.  After any
    sequence of the exposed calls the default enumeration shows the same
    sequence of [index] values as before; and when the stored [index]
    values are pairwise distinct it lists the same Posts at the same
    positions, every field but [read] and [starred] unchanged.  (Among
    Posts of equal [index] the order is not determined and nothing is
    said of it.) *)
Theorem run_keeps_order (ops : list Op) (db : DB) :
  map Post.index (PostManager.all (posts (run ops db)))
  = map Post.index (PostManager.all (posts db))
  /\ (NoDup (stored_indexes (posts db)) ->
      map without_flags (PostManager.all (posts (run ops db)))
      = map without_flags (PostManager.all (posts db))).
Proof.
  split.
  - apply (StronglySorted_unique Z.le); [apply all_index_sorted..|].
    rewrite !all_index_map.
    rewrite !(Permutation_map _ (order_by_perm _ _)).
    apply run_index_perm.
  - intros Hdistinct.
    assert (Hperm : Permutation
              (map without_flags (PostManager.all (posts (run ops db))))
              (map without_flags (PostManager.all (posts db)))).
    { rewrite !all_rows_perm. apply run_rows_perm. }
    assert (Hnd : NoDup (map Post.index
                           (map without_flags (PostManager.all (posts db))))).
    { rewrite (Permutation_map _ (all_rows_perm (posts db))), map_map.
      exact Hdistinct. }
    apply (StronglySorted_unique_strong
             (fun p q : Post.t => Post.index p <= Post.index q));
      [|apply all_rows_sorted..|exact Hperm].
    intros x1 x2 Hx1 Hx2 H12 H21.
    rewrite Hperm in Hx1.
    apply (NoDup_map_same Post.index _ x1 x2 Hnd Hx1 Hx2). lia.
Qed.

Lemma run_keeps_order_witness :
  map without_flags
    (PostManager.all
       (posts (run [post_mark_read sample_post;
                    post_toggle_starred sample_post2]
                 (with_posts sample_db two_posts))))
  = map without_flags (PostManager.all two_posts).
Proof.
  apply (run_keeps_order [post_mark_read sample_post;
                          post_toggle_starred sample_post2]
           (with_posts sample_db two_posts)).
  apply (bool_decide_unpack _). vm_compute. exact I.
Defined.

(** ** Further properties: bounds of the unread counts *)

(** X11. The count of a Category is at least the count of each of its
    Sources and at most the number of stored Posts; a count is never
    negative. *)
Theorem source_count_within_category
    (sources : gmap Z Source.t) (posts : gmap Z Post.t)
    (s stored : Source.t) (c : Category.t) (spk cpk : Z)
    (Hs : Source.id s = Some spk)
    (Hstored : sources !! spk = Some stored)
    (Hcat : Source.category stored = Some cpk)
    (Hc : Category.id c = Some cpk) :
  exists n m : Z,
    Source.unread_posts_count s posts = Ok n
    /\ Category.unread_posts_count c sources posts = Ok m
    /\ 0 <= n <= m /\ m <= Z.of_nat (size posts).
Proof.
  rewrite (source_count_size s spk) by done.
  rewrite (category_count_size c cpk) by done.
  do 2 eexists. split; [reflexivity|]. split; [reflexivity|].
  assert (Hle : (source_unread spk posts
                 <= category_unread cpk sources posts)%nat).
  { apply map_subseteq_size, map_filter_subseteq_ext.
    intros i x _ [Hsrc Hread]. simpl in *.
    unfold unread_in_category. simpl.
    rewrite Hread, Hsrc, Hstored. simpl.
    by apply bool_decide_eq_true. }
  assert (Hall : (category_unread cpk sources posts <= size posts)%nat)
    by apply map_size_filter.
  lia.
Qed.

Lemma source_count_within_category_witness :
  exists n m : Z,
    Source.unread_posts_count sample_source two_posts = Ok n
    /\ Category.unread_posts_count
         {| Category.id := Some 3; Category.name := "News" |}
         (sources sample_db) two_posts = Ok m
    /\ 0 <= n <= m /\ m <= Z.of_nat (size two_posts).
Proof.
  exact (source_count_within_category (sources sample_db) two_posts
           sample_source sample_source
           {| Category.id := Some 3; Category.name := "News" |} 7 3
           eq_refl eq_refl eq_refl eq_refl).
Defined.

(** X12. The count of a saved Category is zero exactly when no stored
    Post is both unread and attached to a stored Source of the Category:
    a Category without Sources, and Sources without Posts, count
    nothing. *)
Theorem category_count_zero
    (sources : gmap Z Source.t) (posts : gmap Z Post.t)
    (c : Category.t) (cpk : Z)
    (Hc : Category.id c = Some cpk) :
  Category.unread_posts_count c sources posts = Ok 0
  <-> forall pk row, posts !! pk = Some row ->
        Post.read row = true \/ post_in_category sources cpk row = false.
Proof.
  rewrite (category_count_size c cpk) by done.
  unfold category_unread.
  assert (Hiff : size (filter (fun r : Z * Post.t =>
                                 unread_in_category sources cpk r = true)
                         posts) = 0%nat
                 <-> forall pk row, posts !! pk = Some row ->
                       unread_in_category sources cpk (pk, row) <> true).
  { rewrite map_size_empty_iff, map_empty. split.
    - intros H pk row Hrow Hin.
      specialize (H pk). apply map_lookup_filter_None in H.
      destruct H as [H|H]; [congruence|]. by apply (H row).
    - intros H pk. apply map_lookup_filter_None.
      destruct (posts !! pk) as [row|] eqn:Hrow; [|by left].
      right. intros x [= <-]. by apply H. }
  split.
  - intros [= H0] pk row Hrow.
    assert (Hz : size (filter (fun r : Z * Post.t =>
                                 unread_in_category sources cpk r = true)
                         posts) = 0%nat) by lia.
    pose proof (proj1 Hiff Hz pk row Hrow) as Hn.
    unfold unread_in_category, post_in_category in *. simpl in Hn.
    destruct (Post.read row); [by left|right]. simpl in Hn.
    by destruct (match sources !! Post.source row with
                 | Some s => bool_decide (Source.category s = Some cpk)
                 | None => false
                 end).
  - intros H. f_equal.
    assert (Hz : size (filter (fun r : Z * Post.t =>
                                 unread_in_category sources cpk r = true)
                         posts) = 0%nat); [|lia].
    apply Hiff. intros pk row Hrow.
    unfold unread_in_category. simpl.
    destruct (H pk row Hrow) as [Hr|Hr]; unfold post_in_category in *.
    + rewrite Hr. simpl. congruence.
    + rewrite Hr, andb_false_r. congruence.
Qed.

Lemma category_count_zero_witness :
  Category.unread_posts_count
    {| Category.id := Some 4; Category.name := "Empty" |}
    (sources sample_db) two_posts = Ok 0.
Proof.
  apply (category_count_zero (sources sample_db) two_posts
           {| Category.id := Some 4; Category.name := "Empty" |} 4 eq_refl).
  intros pk row Hrow. right.
  unfold post_in_category.
  destruct (decide (pk = 1)) as [->|H1].
  - vm_compute in Hrow. injection Hrow as <-. vm_compute. reflexivity.
  - destruct (decide (pk = 2)) as [->|H2].
    + vm_compute in Hrow. injection Hrow as <-. vm_compute. reflexivity.
    + unfold two_posts, sample_posts in Hrow.
      rewrite lookup_insert_ne, lookup_singleton_ne in Hrow by done.
      discriminate.
Defined.

(** ** Further properties: the links *)

Lemma digit_of_hex_digit (d : Z) :
  0 <= d < 10 -> digit_of (Py.hex_digit d) = d.
Proof.
  intros Hd.
  assert (H : d = 0 \/ d = 1 \/ d = 2 \/ d = 3 \/ d = 4 \/ d = 5 \/ d = 6
              \/ d = 7 \/ d = 8 \/ d = 9) by lia.
  repeat destruct H as [->|H]; try reflexivity. by subst.
Qed.

Lemma hex_digit_not_minus (d : Z) (rest : string) :
  0 <= d < 10 ->
  signed_value (String (Py.hex_digit d) rest)
  = dec_acc (String (Py.hex_digit d) rest) 0.
Proof.
  intros Hd.
  assert (H : d = 0 \/ d = 1 \/ d = 2 \/ d = 3 \/ d = 4 \/ d = 5 \/ d = 6
              \/ d = 7 \/ d = 8 \/ d = 9) by lia.
  repeat destruct H as [->|H]; try reflexivity. by subst.
Qed.

Lemma dec_loop_app (fuel : nat) (n : Z) (acc t : string) :
  Py.dec_loop fuel n acc +:+ t = Py.dec_loop fuel n (acc +:+ t).
Proof.
  revert n acc. induction fuel as [|fuel IH]; intros n acc; simpl.
  - reflexivity.
  - destruct (n <? 10); [reflexivity|]. by rewrite IH.
Qed.

Lemma dec_loop_S (fuel : nat) (n : Z) (acc : string) :
  Py.dec_loop (S fuel) n acc
  = if n <? 10 then String (Py.hex_digit (n mod 10)) acc
    else Py.dec_loop fuel (n / 10) (String (Py.hex_digit (n mod 10)) acc).
Proof. reflexivity. Qed.

Lemma dec_acc_cons (c : ascii) (s : string) (v : Z) :
  dec_acc (String c s) v = dec_acc s (v * 10 + digit_of c).
Proof. reflexivity. Qed.

(** With enough fuel the digits written for [n] read back as [n]. *)
Lemma dec_loop_value (fuel : nat) (n : Z) (acc : string) :
  0 <= n < 2 ^ Z.of_nat fuel ->
  dec_acc (Py.dec_loop fuel n acc) 0 = dec_acc acc n.
Proof.
  revert n acc. induction fuel as [|fuel IH]; intros n acc Hn.
  - simpl in *. by replace n with 0 by lia.
  - rewrite Nat2Z.inj_succ, Z.pow_succ_r in Hn by lia.
    pose proof (Z.mod_pos_bound n 10 eq_refl) as Hmod.
    pose proof (Z.div_mod n 10) as Hdiv.
    rewrite dec_loop_S. destruct (Z.ltb_spec n 10).
    + rewrite dec_acc_cons, digit_of_hex_digit by done.
      rewrite Z.mod_small by lia. f_equal.
    + rewrite IH.
      * rewrite dec_acc_cons, digit_of_hex_digit by done. f_equal. lia.
      * split; [apply Z.div_pos; lia|].
        apply Z.div_lt_upper_bound; lia.
Qed.

(** The digits written for [n >= 0] start with a digit. *)
Lemma dec_loop_head (fuel : nat) (n : Z) (acc : string) :
  0 <= n ->
  exists d rest, 0 <= d < 10
                 /\ Py.dec_loop (S fuel) n acc = String (Py.hex_digit d) rest.
Proof.
  revert n acc. induction fuel as [|fuel IH]; intros n acc Hn.
  - exists (n mod 10). simpl. destruct (n <? 10); eexists;
      (split; [apply Z.mod_pos_bound; lia|reflexivity]).
  - change (Py.dec_loop (S (S fuel)) n acc)
      with (let acc' := String (Py.hex_digit (n mod 10)) acc in
            if n <? 10 then acc' else Py.dec_loop (S fuel) (n / 10) acc').
    cbv zeta. destruct (n <? 10).
    + exists (n mod 10). eexists.
      split; [apply Z.mod_pos_bound; lia|reflexivity].
    + apply IH. apply Z.div_pos; lia.
Qed.

Lemma log2_fuel (n : Z) : 0 <= n -> n < 2 ^ Z.of_nat (S (Z.to_nat (Z.log2 n))).
Proof.
  intros Hn. rewrite Nat2Z.inj_succ, Z2Nat.id by apply Z.log2_nonneg.
  destruct (Z.eq_dec n 0) as [->|Hne]; [reflexivity|].
  apply Z.log2_spec. lia.
Qed.

Lemma signed_value_minus (digits : string) :
  signed_value (("-" +:+ digits) +:+ "/") = - dec_acc (digits +:+ "/") 0.
Proof. reflexivity. Qed.

Lemma dec_acc_slash (v : Z) : dec_acc (EmptyString +:+ "/") v = v * 10 - 1.
Proof. reflexivity. Qed.

(** What follows the prefix of a link, read back as a number, tells the
    key: [10 * pk - 1] for a key that is not negative, [10 * pk + 1]
    for a negative one. *)
Lemma format_d_value (n : Z) :
  signed_value (Py.format_d n +:+ "/")
  = if n <? 0 then 10 * n + 1 else 10 * n - 1.
Proof.
  unfold Py.format_d.
  pose proof (log2_fuel (Z.abs n) (Z.abs_nonneg n)) as Hfuel.
  destruct (Z.ltb_spec n 0).
  - rewrite signed_value_minus, dec_loop_app, dec_loop_value by lia.
    rewrite dec_acc_slash. lia.
  - change (EmptyString +:+ ?s) with s at 1.
    rewrite dec_loop_app.
    destruct (dec_loop_head (Z.to_nat (Z.log2 (Z.abs n))) (Z.abs n)
                (EmptyString +:+ "/") (Z.abs_nonneg n))
      as (d & rest & Hd & Heq).
    rewrite Heq, hex_digit_not_minus by done.
    rewrite <- Heq, dec_loop_value by lia.
    rewrite dec_acc_slash. lia.
Qed.

Lemma format_d_inj (a b : Z) :
  Py.format_d a +:+ "/" = Py.format_d b +:+ "/" -> a = b.
Proof.
  intros H. apply (f_equal signed_value) in H.
  rewrite !format_d_value in H.
  destruct (a <? 0), (b <? 0); lia.
Qed.

Lemma append_prefix_inj (prefix x y : string) :
  prefix +:+ x = prefix +:+ y -> x = y.
Proof.
  induction prefix as [|c prefix IH]; simpl; intros H; [exact H|].
  injection H as H. by apply IH.
Qed.

Lemma post_link_key (p q : Post.t) :
  Post.recast_link p = Post.recast_link q <-> Post.id p = Post.id q.
Proof.
  unfold Post.recast_link.
  destruct (Post.id p) as [a|], (Post.id q) as [b|];
    split; intros H; try congruence; try discriminate.
  injection H as H. apply append_prefix_inj, format_d_inj in H. congruence.
Qed.

Lemma enclosure_link_key (e f : Enclosure.t) :
  Enclosure.recast_link e = Enclosure.recast_link f
  <-> Enclosure.id e = Enclosure.id f.
Proof.
  unfold Enclosure.recast_link.
  destruct (Enclosure.id e) as [a|], (Enclosure.id f) as [b|];
    split; intros H; try congruence; try discriminate.
  injection H as H. apply append_prefix_inj, format_d_inj in H. congruence.
Qed.

(** X13. A link names its record: two Posts have the same [recast_link]
    exactly when they have the same primary key, and so have two
    Enclosures; the link of a Post is never the link of an Enclosure;
    and reading the link raises exactly on an instance without key. *)
Theorem recast_link_names_record
    (p q : Post.t) (e f : Enclosure.t) :
  (Post.recast_link p = Post.recast_link q <-> Post.id p = Post.id q)
  /\ (Enclosure.recast_link e = Enclosure.recast_link f
      <-> Enclosure.id e = Enclosure.id f)
  /\ (forall s, Post.recast_link p = Ok s -> Enclosure.recast_link e <> Ok s)
  /\ (Post.recast_link p = Raise TypeError <-> Post.id p = None)
  /\ (Enclosure.recast_link e = Raise TypeError <-> Enclosure.id e = None).
Proof.
  split; [apply post_link_key|]. split; [apply enclosure_link_key|].
  unfold Post.recast_link, Enclosure.recast_link.
  destruct (Post.id p) as [a|], (Enclosure.id e) as [c|];
    repeat split; intros; try congruence; try discriminate.
  all: try match goal with
           | H : Ok _ = Ok ?s |- Ok _ <> Ok ?s =>
               injection H as <-; intros Hs; injection Hs as Hs;
               simpl in Hs; discriminate
           end.
Qed.

(** ** Further properties: the body of Post.title_url_encoded *)

Lemma utf8_char_None (c : Z) : Py.utf8_char c = None <-> unencodable c.
Proof.
  unfold Py.utf8_char, unencodable.
  destruct (Z.ltb_spec c 0); [split; [lia|done]|].
  destruct (Z.ltb_spec c 128); [split; [done|lia]|].
  destruct (Z.ltb_spec c 2048); [split; [done|lia]|].
  destruct (Z.leb_spec 55296 c), (Z.leb_spec c 57343); simpl;
    try (split; [lia|done]);
    destruct (Z.ltb_spec c 65536); try (split; [done|lia]);
    destruct (Z.ltb_spec c 1114112); try (split; [done|lia]);
    split; (lia || done).
Qed.

Lemma utf8_encode_None (s : Py.unicode) :
  Py.utf8_encode s = None <-> Exists unencodable s.
Proof.
  induction s as [|c s IH]; simpl.
  - split; [done|]. intros H. inversion H.
  - rewrite Exists_cons, <- IH, <- utf8_char_None.
    destruct (Py.utf8_char c), (Py.utf8_encode s); intuition congruence.
Qed.

Lemma utf8_char_bytes (c : Z) (bs : list Z) :
  Py.utf8_char c = Some bs -> exists b rest, bs = b :: rest.
Proof.
  unfold Py.utf8_char.
  repeat match goal with
         | |- context [if ?b then _ else _] => destruct b
         end; intros [= <-]; eauto.
Qed.

Lemma quote_byte_head (b : Z) : exists ch rest, Py.quote_byte b = String ch rest.
Proof.
  unfold Py.quote_byte.
  destruct (Py.always_safe b); [eauto|]. destruct (b =? 32); eauto.
Qed.

(** The quoted form of a title that is not empty is not empty. *)
Lemma quote_plus_head (c : Z) (s : Py.unicode) (q : string) :
  Py.quote_plus (c :: s) = Some q -> exists ch rest, q = String ch rest.
Proof.
  unfold Py.quote_plus. simpl.
  destruct (Py.utf8_char c) as [bs|] eqn:Hc; [|discriminate].
  destruct (Py.utf8_encode s) as [rest|]; [|discriminate].
  intros [= <-]. apply utf8_char_bytes in Hc as (b & bs' & ->). simpl.
  destruct (quote_byte_head b) as (ch & r & ->). simpl. eauto.
Qed.

(** X14. What the body of [title_url_encoded] computes before the value
    is dropped.  The [except] branch runs, logging once and leaving the
    empty string, exactly when the title holds a code point that UTF-8
    refuses; otherwise the local is the quoted title, the leading [X=]
    being cut off for every title but the empty one, for which the local
    stays [X=]. *)
Theorem title_url_encoded_body (self : Post.t) :
  Post.title_url_encoded_ret self
  = match Post.title self, Py.quote_plus (Post.title self) with
    | _, None => (EmptyString, true)
    | [], Some _ => ("X=", false)
    | _ :: _, Some q => (q, false)
    end
  /\ (Py.quote_plus (Post.title self) = None
      <-> Exists unencodable (Post.title self)).
Proof.
  split.
  - rewrite title_url_encoded_local.
    destruct (Post.title self) as [|c s] eqn:Ht.
    + reflexivity.
    + destruct (Py.quote_plus (c :: s)) as [q|] eqn:Hq; [|reflexivity].
      apply quote_plus_head in Hq as (ch & rest & ->). reflexivity.
  - rewrite <- utf8_encode_None. unfold Py.quote_plus.
    destruct (Py.utf8_encode (Post.title self)); split; congruence.
Qed.

(** ** Further properties: Categories do not share Posts *)

Lemma filter_length_mono {A} (f g : A -> bool) (l : list A) :
  (forall x, f x = true -> g x = true) ->
  (length (List.filter f l) <= length (List.filter g l))%nat.
Proof.
  intros Hfg. induction l as [|x l IH]; simpl; [lia|].
  destruct (f x) eqn:Hf.
  - rewrite (Hfg x Hf). simpl. lia.
  - destruct (g x); simpl; lia.
Qed.

Lemma category_unread_length (cpk : Z) (sources : gmap Z Source.t)
    (posts : gmap Z Post.t) :
  category_unread cpk sources posts
  = length (List.filter (unread_in_category sources cpk) (map_to_list posts)).
Proof.
  unfold category_unread. symmetry. by apply filter_length_size.
Qed.

(** X15. Two different Categories never count the same Post: their
    unread counts together do not exceed the number of stored Posts
    whose [read] is false. *)
Theorem categories_count_apart
    (sources : gmap Z Source.t) (posts : gmap Z Post.t)
    (c1 c2 : Category.t) (k1 k2 : Z)
    (H1 : Category.id c1 = Some k1) (H2 : Category.id c2 = Some k2)
    (Hne : k1 <> k2) :
  exists m1 m2 : Z,
    Category.unread_posts_count c1 sources posts = Ok m1
    /\ Category.unread_posts_count c2 sources posts = Ok m2
    /\ m1 + m2
       <= Z.of_nat (size (filter (fun r : Z * Post.t => Post.read r.2 = false)
                            posts)).
Proof.
  rewrite (category_count_size c1 k1), (category_count_size c2 k2) by done.
  do 2 eexists. split; [reflexivity|]. split; [reflexivity|].
  rewrite !category_unread_length.
  rewrite <- (filter_length_size (fun r : Z * Post.t => negb (Post.read r.2)))
    by (intros r; apply negb_true_iff).
  pose proof (filter_disjoint_length
                (unread_in_category sources k1)
                (unread_in_category sources k2) (map_to_list posts)) as Hsum.
  pose proof (filter_length_mono
                (fun x => unread_in_category sources k1 x
                          || unread_in_category sources k2 x)
                (fun r : Z * Post.t => negb (Post.read r.2))
                (map_to_list posts)) as Hle.
  assert (Hdisj : forall x, unread_in_category sources k1 x = true ->
                            unread_in_category sources k2 x = true -> False).
  { intros x. unfold unread_in_category.
    destruct (negb (Post.read x.2)); simpl; [|discriminate].
    destruct (sources !! Post.source x.2) as [s|]; [|discriminate].
    rewrite !bool_decide_eq_true. congruence. }
  assert (Hsub : forall x, unread_in_category sources k1 x
                           || unread_in_category sources k2 x = true ->
                           negb (Post.read x.2) = true).
  { intros x. unfold unread_in_category.
    destruct (negb (Post.read x.2)); simpl; [done|].
    intros H. discriminate. }
  specialize (Hsum Hdisj). specialize (Hle Hsub). lia.
Qed.

Lemma categories_count_apart_witness :
  exists m1 m2 : Z,
    Category.unread_posts_count
      {| Category.id := Some 3; Category.name := "News" |}
      (sources sample_db) two_posts = Ok m1
    /\ Category.unread_posts_count
         {| Category.id := Some 4; Category.name := "Empty" |}
         (sources sample_db) two_posts = Ok m2
    /\ m1 + m2
       <= Z.of_nat (size (filter (fun r : Z * Post.t => Post.read r.2 = false)
                            two_posts)).
Proof.
  apply (categories_count_apart (sources sample_db) two_posts
           {| Category.id := Some 3; Category.name := "News" |}
           {| Category.id := Some 4; Category.name := "Empty" |} 3 4
           eq_refl eq_refl).
  lia.
Defined.

(** ** Worked instances *)

Example format_02x_samples :
  map Py.format_02x [0; 10; 255; 256; -1]
  = ["00"; "0a"; "ff"; "100"; "-1"]%string.
Proof. vm_compute. reflexivity. Qed.

Example ordinal_samples :
  Py.ymd2ord 1 1 1 = 1 /\ Py.ymd2ord 1970 1 1 = 719163
  /\ Py.ymd2ord 2024 3 1 = 738946.
Proof. vm_compute. repeat split; reflexivity. Qed.

Example truncation_samples :
  Py.days (-1) = -1 /\ Py.int_half (-1) = 0 /\ Py.int_half (-3) = -1
  /\ Py.int_half 5 = 2.
Proof. vm_compute. repeat split; reflexivity. Qed.

Example urlencode_sample :
  Py.urlencode_X [72; 105; 32; 233; 47] = Some "X=Hi+%C3%A9%2F"
  /\ Py.urlencode_X [72; 55296] = None.
Proof. vm_compute. split; reflexivity. Qed.

Example title_url_encoded_samples :
  Post.title_url_encoded_ret sample_post = ("Hi", false)
  /\ Post.title_url_encoded_ret sample_post2 = ("X=", false)
  /\ Post.title_url_encoded sample_post = None.
Proof. vm_compute. repeat split; reflexivity. Qed.

Example mark_read_sample :
  Post.table_after (Post.mark_read sample_post two_posts) !! 1
  = Some (Post.set_read true sample_post)
  /\ Post.table_after (Post.mark_read sample_post two_posts) !! 2
     = Some sample_post2
  /\ Post.outcome (Post.mark_read sample_post two_posts) = Ok tt.
Proof. vm_compute. repeat split; reflexivity. Qed.

Example mark_read_unsaved_sample :
  Post.outcome (Post.mark_read (Post.create 7 [] "b" 0 3) two_posts)
  = Raise ValueError
  /\ Post.table_after (Post.mark_read (Post.create 7 [] "b" 0 3) two_posts)
     = two_posts.
Proof. split; reflexivity. Qed.

Example unread_count_samples :
  Source.unread_posts_count sample_source two_posts = Ok 1
  /\ Category.unread_posts_count
       {| Category.id := Some 3; Category.name := "News" |}
       (sources sample_db) two_posts = Ok 1
  /\ Category.unread_posts_count
       {| Category.id := Some 4; Category.name := "Empty" |}
       (sources sample_db) two_posts = Ok 0
  /\ Source.unread_posts_count (Source.create "u") two_posts = Raise ValueError.
Proof. vm_compute. repeat split; reflexivity. Qed.

Example recast_link_samples :
  Post.recast_link sample_post = Ok "/post/1/"
  /\ Post.recast_link (Post.create 7 [] "b" 0 3) = Raise TypeError
  /\ Py.format_d 1205 = "1205" /\ Py.format_d (-40) = "-40"
  /\ Py.format_d 0 = "0".
Proof. vm_compute. repeat split; reflexivity. Qed.

Example garden_style_samples :
  Source.garden_style sample_source (Py.datetime_utc 2024 1 11)
  = "background-color:#fffafa"
  /\ Source.garden_style sample_source (Py.datetime_utc 2025 1 1)
     = "background-color:#ff4848;color:white"
  /\ Source.garden_style (Source.create "u") 0
     = "background-color:#D00;color:white".
Proof. vm_compute. repeat split; reflexivity. Qed.
